(** * weather.py: a Telegram weather bot run as a cloud function

    A shallow embedding of [weather.py].  Python values that reach the
    handler come from JSON documents, so the value type below is the
    image of [json.loads]; exceptions are values of [exn]; outbound HTTP
    calls are answered by an oracle and recorded in a log that is
    threaded through every function that performs I/O. *)

From Stdlib Require Import ZArith List String Ascii Bool Lia.
From Stdlib Require Import Floats.SpecFloat DecimalString.
Import ListNotations.

Set Warnings "-register-all".

Local Open Scope string_scope.
Local Open Scope Z_scope.

(** ** Python values *)

(** The objects [json.loads] can build.  A [str] is kept as the UTF-8
    bytes of its code points; a lone surrogate, which [json.loads] accepts
    from an escape such as ["\ud800"], is kept as the three bytes its code
    point would take (ED, then A0..BF, then one more), which no text that
    [str.encode] accepts contains.  A [dict] keeps its items in insertion
    order, as Python does, and lookup takes the first item with the key. *)
Inductive pyval : Type :=
| PNone
| PBool (b : bool)
| PInt (z : Z)
| PFloat (f : spec_float)
| PStr (s : string)
| PList (l : list pyval)
| PDict (d : list (string * pyval)).

(** The exceptions the program can meet.  [RequestException] stands for
    whatever [requests] raises when no response is obtained. *)
Inductive exn : Type :=
| KeyError (k : pyval)
| IndexError
| TypeError
| AttributeError
| ValueError
| OverflowError
| ZeroDivisionError
| JSONDecodeError
| RequestException
| UnicodeEncodeError
| OtherError (msg : string).

Inductive result (A : Type) : Type :=
| Ok (a : A)
| Raise (e : exn).
Arguments Ok {A} a.
Arguments Raise {A} e.

Definition rbind {A B} (r : result A) (f : A -> result B) : result B :=
  match r with
  | Ok a => f a
  | Raise e => Raise e
  end.


(** ** IEEE binary64 arithmetic, as CPython's [float] *)

Module F64.

Definition prec : Z := 53.
Definition emax : Z := 1024.

Definition div : spec_float -> spec_float -> spec_float := SFdiv prec emax.
Definition leb : spec_float -> spec_float -> bool := SFleb.
Definition eqb : spec_float -> spec_float -> bool := SFeqb.

(** Nearest double of an integer, ties to even; [S754_infinity] when the
    integer is out of range. *)
Definition of_Z (z : Z) : spec_float := binary_normalize prec emax z 0 false.

Definition is_finite (f : spec_float) : bool :=
  match f with
  | S754_zero _ | S754_finite _ _ _ => true
  | S754_infinity _ | S754_nan => false
  end.

(** Nearest double of the quotient of two integers ([b] not zero). *)
Definition of_quotient (a b : Z) : spec_float :=
  match a, b with
  | Z0, _ => S754_zero false
  | _, Z0 => S754_nan
  | Zpos m, Zpos n => div (S754_finite false m 0) (S754_finite false n 0)
  | Zpos m, Zneg n => div (S754_finite false m 0) (S754_finite true n 0)
  | Zneg m, Zpos n => div (S754_finite true m 0) (S754_finite false n 0)
  | Zneg m, Zneg n => div (S754_finite true m 0) (S754_finite true n 0)
  end.

(** [m / 2^k] rounded to the nearest integer, ties to even. *)
Definition round_shift (m : Z) (k : positive) : Z :=
  let d := Z.pow_pos 2 k in
  let q := m / d in
  match Z.compare (2 * (m mod d)) d with
  | Lt => q
  | Gt => q + 1
  | Eq => if Z.even q then q else q + 1
  end.

(** [float.__round__] without [ndigits]: an [int], ties to even. *)
Definition round (f : spec_float) : result Z :=
  match f with
  | S754_zero _ => Ok 0
  | S754_infinity _ => Raise OverflowError
  | S754_nan => Raise ValueError
  | S754_finite s m e =>
      let n := match e with
               | Zneg k => round_shift (Zpos m) k
               | _ => Zpos m * 2 ^ e
               end in
      Ok (if s then - n else n)
  end.

(** The literal [1.333]: the double nearest to 1333/1000. *)
Definition lit_1_333 : spec_float := S754_finite false 6003298303284871 (-52).

End F64.

(** ** Python's built-in operations, as far as the program uses them *)

Definition quote : string := String (ascii_of_nat 34) EmptyString.
Definition nl : string := String (ascii_of_nat 10) EmptyString.

Definition string_of_Z (z : Z) : string := NilZero.string_of_int (Z.to_int z).

Fixpoint dict_get (d : list (string * pyval)) (k : string) : option pyval :=
  match d with
  | [] => None
  | (k', v) :: d' => if String.eqb k' k then Some v else dict_get d' k
  end.

(** [d[k] = v] on a dict: the value of an existing key is replaced in
    place, a new key goes to the end. *)
Fixpoint dict_set (d : list (string * pyval)) (k : string) (v : pyval)
  : list (string * pyval) :=
  match d with
  | [] => [(k, v)]
  | (k', v') :: d' =>
      if String.eqb k' k then (k', v) :: d' else (k', v') :: dict_set d' k v
  end.

(** The characters of a [str]: a byte that is not a UTF-8 continuation
    byte starts a new character. *)
Definition is_continuation (c : ascii) : bool :=
  let n := N_of_ascii c in ((128 <=? n) && (n <? 192))%N.

Fixpoint utf8_split (cur : string) (s : string) : list string :=
  match s with
  | EmptyString => [cur]
  | String c rest =>
      if is_continuation c
      then utf8_split (cur ++ String c EmptyString) rest
      else cur :: utf8_split (String c EmptyString) rest
  end.

Definition utf8_chars (s : string) : list string :=
  match s with
  | EmptyString => []
  | String c rest => utf8_split (String c EmptyString) rest
  end.

(** Sequence indexing: a negative index counts from the end. *)
Definition seq_index {A} (l : list A) (i : Z) : result A :=
  let n := Z.of_nat (List.length l) in
  let j := if i <? 0 then i + n else i in
  if (j <? 0) || (n <=? j) then Raise IndexError
  else match nth_error l (Z.to_nat j) with
       | Some x => Ok x
       | None => Raise IndexError
       end.

(** What the program writes between square brackets: a [str] literal or
    an [int] literal. *)
Inductive subscript : Type :=
| Key (k : string)
| Index (i : Z).

(** [c[k]] *)
Definition py_getitem (c : pyval) (k : subscript) : result pyval :=
  match c, k with
  | PDict d, Key s =>
      match dict_get d s with
      | Some v => Ok v
      | None => Raise (KeyError (PStr s))
      end
  | PDict d, Index i => Raise (KeyError (PInt i))
  | PList l, Index i => seq_index l i
  | PList _, Key _ => Raise TypeError
  | PStr s, Index i => rbind (seq_index (utf8_chars s) i) (fun c => Ok (PStr c))
  | PStr _, Key _ => Raise TypeError
  | (PNone | PBool _ | PInt _ | PFloat _), _ => Raise TypeError
  end.

(** [x == s] for a [str] literal [s] *)
Definition py_eq_str (x : pyval) (s : string) : bool :=
  match x with
  | PStr t => String.eqb t s
  | _ => false
  end.

(** [x == n] for an [int] literal [n]; [bool] is a subclass of [int], and
    a [float] compares by value. *)
Definition py_eq_int (x : pyval) (n : Z) : bool :=
  match x with
  | PInt z => z =? n
  | PBool b => (if b then 1 else 0) =? n
  | PFloat f => F64.eqb f (F64.of_Z n)
  | _ => false
  end.

Definition substring_of (needle s : string) : bool :=
  match String.index 0 needle s with
  | Some _ => true
  | None => false
  end.

(** [s in c] for a [str] literal [s] *)
Definition py_in (s : string) (c : pyval) : result bool :=
  match c with
  | PDict d => Ok (match dict_get d s with Some _ => true | None => false end)
  | PList l => Ok (existsb (fun x => py_eq_str x s) l)
  | PStr t => Ok (substring_of s t)
  | PNone | PBool _ | PInt _ | PFloat _ => Raise TypeError
  end.

(** Truth value of an object, as [if], [and], [or] test it. *)
Definition py_truthy (x : pyval) : bool :=
  match x with
  | PNone => false
  | PBool b => b
  | PInt z => negb (z =? 0)
  | PFloat (S754_zero _) => false
  | PFloat _ => true
  | PStr s => negb (String.eqb s EmptyString)
  | PList l => match l with [] => false | _ => true end
  | PDict d => match d with [] => false | _ => true end
  end.

(** [x and y]: [x] when [x] is false, [y] otherwise. *)
Definition py_and (x y : pyval) : pyval := if py_truthy x then y else x.

(** [x <= n] for an [int] literal [n] *)
Definition py_le_int (x : pyval) (n : Z) : result bool :=
  match x with
  | PInt z => Ok (z <=? n)
  | PBool b => Ok ((if b then 1 else 0) <=? n)
  | PFloat f => Ok (F64.leb f (F64.of_Z n))
  | _ => Raise TypeError
  end.

Definition float_result (f : spec_float) : result spec_float :=
  if F64.is_finite f then Ok f else Raise OverflowError.

(** [x / n] for an [int] literal [n] other than zero: an [int] is divided
    exactly and the quotient rounded once; a [float] is divided by the
    double of [n]. *)
Definition py_truediv_int (x : pyval) (n : Z) : result spec_float :=
  match x with
  | PInt z => float_result (F64.of_quotient z n)
  | PBool b => float_result (F64.of_quotient (if b then 1 else 0) n)
  | PFloat f => Ok (F64.div f (F64.of_Z n))
  | _ => Raise TypeError
  end.

(** [x / y] for a [float] literal [y] other than zero: an [int] is first
    converted to a [float]. *)
Definition py_truediv_float (x : pyval) (y : spec_float) : result spec_float :=
  match x with
  | PInt z => rbind (float_result (F64.of_Z z)) (fun f => Ok (F64.div f y))
  | PBool b => Ok (F64.div (F64.of_Z (if b then 1 else 0)) y)
  | PFloat f => Ok (F64.div f y)
  | _ => Raise TypeError
  end.

(** [round(x)] with one argument: always an [int]. *)
Definition py_round (x : pyval) : result Z :=
  match x with
  | PInt z => Ok z
  | PBool b => Ok (if b then 1 else 0)
  | PFloat f => F64.round f
  | _ => Raise TypeError
  end.

(** [c[k1][k2]...[kn]] *)
Fixpoint py_path (c : pyval) (ks : list subscript) : result pyval :=
  match ks with
  | [] => Ok c
  | k :: ks' => rbind (py_getitem c k) (fun c' => py_path c' ks')
  end.

(** [c.get(k, default)]: only a [dict] has the method. *)
Definition py_dict_get (c : pyval) (k : string) (default : pyval) : result pyval :=
  match c with
  | PDict d => Ok (match dict_get d k with Some v => v | None => default end)
  | _ => Raise AttributeError
  end.

(** Does the [str] hold a surrogate code point (bytes ED, A0..BF)? *)
Fixpoint has_surrogate (s : string) : bool :=
  match s with
  | EmptyString => false
  | String c rest =>
      match rest with
      | EmptyString => false
      | String c' _ =>
          ((N_of_ascii c =? 237) && (160 <=? N_of_ascii c')
           && (N_of_ascii c' <=? 191))%N
          || has_surrogate rest
      end
  end.

(** [s.encode('utf-8').decode('utf-8')]: [encode] raises on a [str] with a
    surrogate; any other [str] comes back unchanged; nothing else has the
    method. *)
Definition encode_decode_utf8 (x : pyval) : result pyval :=
  match x with
  | PStr s => if has_surrogate s then Raise UnicodeEncodeError else Ok (PStr s)
  | _ => Raise AttributeError
  end.

(** ** Configuration, libraries and the outside world *)

(** The environment variables read at import time; [None] when unset. *)
Record Config : Type := {
  TELEGRAM_BOT_TOKEN : option string;
  YS_API_KEY : option string;
  OW_API_KEY : option string;
  DD_API_KEY : option string;
  DD_SEC_KEY : option string
}.

Definition is_None {A} (o : option A) : bool :=
  match o with
  | None => true
  | Some _ => false
  end.

(** An environment value as an object, and as an f-string field. *)
Definition env_value (o : option string) : pyval :=
  match o with
  | Some s => PStr s
  | None => PNone
  end.

Definition env_text (o : option string) : string :=
  match o with
  | Some s => s
  | None => "None"
  end.

Inductive http_method : Type := GET | POST.

(** A call of [requests.get] or [requests.post] with its keyword arguments. *)
Record request : Type := {
  method : http_method;
  url : string;
  headers : list (string * pyval);
  params : list (string * pyval);
  json_arg : option pyval;
  data : option string
}.

(** What the program reads of a [requests.Response]: [r.ok], [r.json()]
    (which raises on a body that is not JSON) and [r.content]. *)
Record response : Type := {
  ok : bool;
  json : result pyval;
  content : string
}.

(** The fields of a [datetime] that ["%H:%M"] prints. *)
Record datetime : Type := {
  hour : Z;
  minute : Z
}.

(** Library functions and collaborators the program calls but does not
    define: [json.loads]; [str()] of a float, list or dict;
    [datetime.fromtimestamp] in the zone of the process; and the remote
    services, which answer a request with a response or make [requests]
    raise. *)
Record Platform : Type := {
  json_loads : pyval -> result pyval;
  str_other : pyval -> string;
  datetime_fromtimestamp : pyval -> result datetime;
  requests_send : request -> result response
}.

(** [str(x)], as an f-string field formats [x]. *)
Definition py_str (pf : Platform) (x : pyval) : string :=
  match x with
  | PStr s => s
  | PInt z => string_of_Z z
  | PBool true => "True"
  | PBool false => "False"
  | PNone => "None"
  | PFloat _ | PList _ | PDict _ => str_other pf x
  end.

Definition two_digits (n : Z) : string :=
  if n <? 10 then "0" ++ string_of_Z n else string_of_Z n.

(** [dt.strftime("%H:%M")] *)
Definition strftime_HM (dt : datetime) : string :=
  two_digits (hour dt) ++ ":" ++ two_digits (minute dt).

(** ** Computations that call out

    The state is the log of the requests made so far, oldest first. *)
Definition IO (A : Type) : Type := list request -> result A * list request.

Definition ret {A} (a : A) : IO A := fun log => (Ok a, log).

Definition bind {A B} (m : IO A) (f : A -> IO B) : IO B :=
  fun log =>
    match m log with
    | (Ok a, log') => f a log'
    | (Raise e, log') => (Raise e, log')
    end.

Definition lift {A} (r : result A) : IO A := fun log => (r, log).

Declare Scope io_scope.
Delimit Scope io_scope with io.
Notation "x <- m ;; k" := (bind m (fun x => k))
  (at level 61, m at next level, right associativity) : io_scope.
Notation "m ;;; k" := (bind m (fun _ => k))
  (at level 61, right associativity) : io_scope.
Local Open Scope io_scope.

(** ** The program *)

Section Program.

Variable cfg : Config.
Variable pf : Platform.

Definition FUNC_RESPONSE : pyval :=
  PDict [("statusCode", PInt 200); ("body", PStr "")].

Definition TELEGRAM_API_URL : string :=
  "https://api.telegram.org/bot" ++ env_text (TELEGRAM_BOT_TOKEN cfg).

Definition MAX_VOICE_DURATION : Z := 30.

(** [requests.get(...)] and [requests.post(...)]: the call is logged
    whether it yields a response or raises. *)
Definition requests_call (r : request) : IO response :=
  fun log => (requests_send pf r, (log ++ [r])%list).

(** [requests.post(url=f'{TELEGRAM_API_URL}/<endpoint>', json=reply_message)] *)
Definition send_request (endpoint : string) (reply_message : pyval) : request :=
  {| method := POST;
     url := TELEGRAM_API_URL ++ endpoint;
     headers := []; params := [];
     json_arg := Some reply_message; data := None |}.

Definition send_message (text message : pyval) : IO unit :=
  message_id <- lift (py_getitem message (Key "message_id")) ;;
  chat_id <- lift (py_path message [Key "chat"; Key "id"]) ;;
  let reply_message := [("chat_id", chat_id); ("reply_to_message_id", message_id)] in
  match text with
  | PStr _ =>
      let reply_message := dict_set reply_message "text" text in
      requests_call (send_request "/sendMessage" (PDict reply_message)) ;;;
      ret tt
  | PDict _ =>
      let reply_message := dict_set reply_message "voice" text in
      requests_call (send_request "/sendVoice" (PDict reply_message)) ;;;
      ret tt
  | _ => ret tt
  end.

Definition directions : list string :=
  ["С"; "СВ"; "В"; "ЮВ"; "Ю"; "ЮЗ"; "З"; "СЗ"].

Definition get_wind_direction (degrees : pyval) : result string :=
  rbind (py_truediv_int degrees 45) (fun q =>
  rbind (F64.round q) (fun r =>
  let index := r mod 8 in
  seq_index directions index)).

Definition get_time_from_timestamp (timestamp : pyval) : result string :=
  rbind (datetime_fromtimestamp pf timestamp) (fun dt =>
  Ok (strftime_HM dt)).

(** The f-string of [get_weather_info]. *)
Definition weather_text (weather_description : pyval)
           (temperature feels_like pressure humidity : Z)
           (visibility wind_speed : pyval)
           (wind_direction sunrise sunset : string) : string :=
  py_str pf weather_description ++ "." ++ nl ++
  "Температура " ++ string_of_Z temperature ++ " ℃, ощущается как " ++
  string_of_Z feels_like ++ " ℃." ++ nl ++
  "Атмосферное давление " ++ string_of_Z pressure ++ " мм рт. ст." ++ nl ++
  "Влажность " ++ string_of_Z humidity ++ "%." ++ nl ++
  "Видимость " ++ py_str pf visibility ++ " метров." ++ nl ++
  "Ветер " ++ py_str pf wind_speed ++ " м/с " ++ wind_direction ++ "." ++ nl ++
  "Восход солнца " ++ sunrise ++ " МСК. Закат " ++ sunset ++ " МСК.".

Definition no_data : string := "нет данных".

(** The statements of [get_weather_info] after [r.json()], from the first
    field read to the f-string, in the order of the source; they make no
    request. *)
Definition format_weather (info_weather : pyval) : result string :=
  rbind (py_path info_weather [Key "weather"; Index 0; Key "description"])
    (fun weather_description =>
  rbind (rbind (py_path info_weather [Key "main"; Key "temp"]) py_round)
    (fun temperature =>
  rbind (rbind (py_path info_weather [Key "main"; Key "feels_like"]) py_round)
    (fun feels_like =>
  rbind (rbind (rbind (py_path info_weather [Key "main"; Key "pressure"])
                      (fun p => py_truediv_float p F64.lit_1_333))
               F64.round)
    (fun pressure =>
  rbind (rbind (py_path info_weather [Key "main"; Key "humidity"]) py_round)
    (fun humidity =>
  rbind (py_dict_get info_weather "visibility" (PStr no_data))
    (fun visibility =>
  rbind (py_path info_weather [Key "wind"; Key "speed"])
    (fun wind_speed =>
  rbind (rbind (py_path info_weather [Key "wind"; Key "deg"]) get_wind_direction)
    (fun wind_direction =>
  rbind (rbind (py_path info_weather [Key "sys"; Key "sunrise"])
               get_time_from_timestamp)
    (fun sunrise =>
  rbind (rbind (py_path info_weather [Key "sys"; Key "sunset"])
               get_time_from_timestamp)
    (fun sunset =>
  Ok (weather_text weather_description temperature feels_like pressure
                   humidity visibility wind_speed wind_direction
                   sunrise sunset))))))))))).

Definition weather_request (lat lon : pyval) : request :=
  {| method := GET;
     url := "https://api.openweathermap.org/data/2.5/weather";
     headers := [];
     params := [("lat", lat); ("lon", lon);
                ("appid", env_value (OW_API_KEY cfg));
                ("units", PStr "metric"); ("lang", PStr "ru")];
     json_arg := None; data := None |}.

Definition get_weather_info (lat lon : pyval) : IO pyval :=
  r <- requests_call (weather_request lat lon) ;;
  info_weather <- lift (json r) ;;
  echo_text <- lift (format_weather info_weather) ;;
  ret (PStr echo_text).

Definition address_request (address : pyval) : request :=
  {| method := POST;
     url := "https://cleaner.dadata.ru/api/v1/clean/address";
     headers := [("Authorization", PStr ("Token " ++ env_text (DD_API_KEY cfg)));
                 ("X-Secret", env_value (DD_SEC_KEY cfg))];
     params := [];
     json_arg := Some (PList [address]); data := None |}.

Definition get_coords_from_address (address : pyval) : IO (pyval * pyval) :=
  r_address <- requests_call (address_request address) ;;
  if ok r_address then
    result <- lift (rbind (json r_address) (fun j => py_getitem j (Index 0))) ;;
    qc <- lift (py_getitem result (Key "qc")) ;;
    if py_eq_int qc 0 then
      geo_lat <- lift (py_getitem result (Key "geo_lat")) ;;
      geo_lon <- lift (py_getitem result (Key "geo_lon")) ;;
      ret (geo_lat, geo_lon)
    else ret (PNone, PNone)
  else ret (PNone, PNone).

Definition not_found_text (address : pyval) : string :=
  "Я не нашел населенный пункт " ++ quote ++ py_str pf address ++ quote ++ ".".

Definition get_echo_text (address : pyval) : IO pyval :=
  coords <- get_coords_from_address address ;;
  let '(lat, lon) := coords in
  if py_truthy (py_and lat lon) then get_weather_info lat lon
  else ret (PStr (not_found_text address)).

Definition process_location_message (location : pyval) : IO pyval :=
  lat <- lift (py_getitem location (Key "latitude")) ;;
  lon <- lift (py_getitem location (Key "longitude")) ;;
  get_weather_info lat lon.


Definition getfile_request (file_id : pyval) : request :=
  {| method := GET;
     url := TELEGRAM_API_URL ++ "/getFile";
     headers := [];
     params := [("file_id", file_id)];
     json_arg := None; data := None |}.

Definition download_request (file_path : pyval) : request :=
  {| method := GET;
     url := "https://api.telegram.org/file/bot" ++
            env_text (TELEGRAM_BOT_TOKEN cfg) ++ "/" ++ py_str pf file_path;
     headers := []; params := [];
     json_arg := None; data := None |}.

Definition stt_request (audio_file : string) : request :=
  {| method := POST;
     url := "https://stt.api.cloud.yandex.net/speech/v1/stt:recognize";
     headers := [("Authorization", PStr ("Api-Key " ++ env_text (YS_API_KEY cfg)))];
     params := [];
     json_arg := None; data := Some audio_file |}.

Definition not_recognized_text : string :=
  "Не удалось распознать голосовое сообщение.".

Definition process_voice_message (message : pyval) : IO pyval :=
  file_id <- lift (py_path message [Key "voice"; Key "file_id"]) ;;
  r_file <- requests_call (getfile_request file_id) ;;
  file_path <- lift (rbind (json r_file) (fun j =>
                     py_path j [Key "result"; Key "file_path"])) ;;
  r_file_download <- requests_call (download_request file_path) ;;
  let audio_file := content r_file_download in
  r_stt <- requests_call (stt_request audio_file) ;;
  if ok r_stt then
    address <- lift (rbind (json r_stt) (fun j => py_getitem j (Key "result"))) ;;
    get_echo_text address
  else ret (PStr not_recognized_text).

Definition start_text : string :=
  "Введите адрес текстовым сообщением, голосовым сообщением или отправьте свою геолокацию," ++
  " чтобы получить информацию о погоде".

Definition voice_too_long_text : string :=
  "Я не могу понять голосовое сообщение длительностью более 30 секунд.".

Definition unsupported_text : string :=
  "Я не могу ответить на такой тип сообщения." ++ nl ++ nl ++
  "Но могу ответить на:" ++ nl ++ "- Текстовое сообщение " ++
  "с названием населенного пункта." ++ nl ++
  "- Голосовое сообщение с названием населенного пункта." ++ nl ++
  "- Сообщение с точкой на карте.".

(** [handler]: the branches that compute [echo_text] continue with the
    shared last two statements, [reply]; the others return on the
    spot, as in the source. *)
Definition handler (event context : pyval) : IO pyval :=
  if is_None (TELEGRAM_BOT_TOKEN cfg) then ret FUNC_RESPONSE else
  if is_None (OW_API_KEY cfg) then ret FUNC_RESPONSE else
  update <- lift (rbind (py_getitem event (Key "body")) (json_loads pf)) ;;
  has_message <- lift (py_in "message" update) ;;
  if negb has_message then ret FUNC_RESPONSE else
  message_in <- lift (py_getitem update (Key "message")) ;;
  let reply (echo_text : pyval) : IO pyval :=
    send_message echo_text message_in ;;;
    ret FUNC_RESPONSE in
  has_location <- lift (py_in "location" message_in) ;;
  if has_location then
    location <- lift (py_getitem message_in (Key "location")) ;;
    echo_text <- process_location_message location ;;
    reply echo_text
  else
  has_text <- lift (py_in "text" message_in) ;;
  if has_text then
    text <- lift (py_getitem message_in (Key "text")) ;;
    if py_eq_str text "/start" then
      let echo_text := PStr start_text in
      send_message echo_text message_in ;;;
      ret FUNC_RESPONSE
    else
    if is_None (DD_API_KEY cfg) || is_None (DD_SEC_KEY cfg) then ret FUNC_RESPONSE else
    text' <- lift (py_getitem message_in (Key "text")) ;;
    address <- lift (encode_decode_utf8 text') ;;
    echo_text <- get_echo_text address ;;
    reply echo_text
  else
  has_voice <- lift (py_in "voice" message_in) ;;
  if has_voice then
    if is_None (YS_API_KEY cfg) then ret FUNC_RESPONSE else
    voice_duration <- lift (py_path message_in [Key "voice"; Key "duration"]) ;;
    fits <- lift (py_le_int voice_duration MAX_VOICE_DURATION) ;;
    if fits then
      echo_text <- process_voice_message message_in ;;
      reply echo_text
    else reply (PStr voice_too_long_text)
  else reply (PStr unsupported_text).

End Program.

(** ** Observations on a run *)

(** [emits m r out]: from any log, [m] ends with [r] after making exactly
    the requests [out], in that order. *)
Definition emits {A} (m : IO A) (r : result A) (out : list request) : Prop :=
  forall log, m log = (r, (log ++ out)%list).

(** An outbound reply: a POST to [sendMessage] or [sendVoice] of the bot. *)
Definition is_send (cfg : Config) (r : request) : bool :=
  match method r with
  | POST => String.eqb (url r) (TELEGRAM_API_URL cfg ++ "/sendMessage")
            || String.eqb (url r) (TELEGRAM_API_URL cfg ++ "/sendVoice")
  | GET => false
  end.

Definition sends (cfg : Config) (out : list request) : list request :=
  filter (is_send cfg) out.

(** The reply [send_message] posts for a text. *)
Definition text_reply (cfg : Config) (chat_id message_id : pyval) (text : string)
  : request :=
  send_request cfg "/sendMessage"
    (PDict [("chat_id", chat_id); ("reply_to_message_id", message_id);
            ("text", PStr text)]).


(** ** The specification's side *)

Module Spec.

(** The eight compass points, from North clockwise. *)
Inductive compass : Type :=
  | North | NorthEast | East | SouthEast | South | SouthWest | West | NorthWest.

Definition compass_points : list compass :=
  [North; NorthEast; East; SouthEast; South; SouthWest; West; NorthWest].

(** The abbreviation the bot prints for a compass point. *)
Definition abbreviation (c : compass) : string :=
  match c with
  | North => "С" | NorthEast => "СВ" | East => "В" | SouthEast => "ЮВ"
  | South => "Ю" | SouthWest => "ЮЗ" | West => "З" | NorthWest => "СЗ"
  end.

(** [a / b] rounded to the nearest integer, ties to even, in exact
    arithmetic ([b] positive). *)
Definition round_quotient (a b : Z) : Z :=
  let q := a / b in
  match Z.compare (2 * (a mod b)) b with
  | Lt => q
  | Gt => q + 1
  | Eq => if Z.even q then q else q + 1
  end.

Definition point_at (index : Z) : compass :=
  nth (Z.to_nat index) compass_points North.

(** [round(degrees / 45) mod 8] against the ordered list. *)
Definition wind_direction (degrees : Z) : compass :=
  point_at (round_quotient degrees 45 mod 8).

(** [round(pressure_hPa / 1.333)] *)
Definition pressure_mmHg (pressure_hPa : Z) : Z :=
  round_quotient (1000 * pressure_hPa) 1333.

End Spec.

(** A number that can be a bearing or a reading: an [int] within the range
    of [float], or a finite [float] in canonical form. *)
Definition finite_number (x : pyval) : Prop :=
  match x with
  | PInt z => Z.abs z < 2 ^ 1024
  | PFloat f => F64.is_finite f = true /\ valid_binary F64.prec F64.emax f = true
  | _ => False
  end.

(** ** Comparing the program with the specification by running both *)

(** The pressure shown for an integer reading, as [get_weather_info]
    computes it. *)
Definition shown_pressure (pressure_hPa : pyval) : result Z :=
  rbind (py_truediv_float pressure_hPa F64.lit_1_333) F64.round.

Definition agrees_on_wind (d : Z) : bool :=
  match get_wind_direction (PInt d) with
  | Ok s => String.eqb s (Spec.abbreviation (Spec.wind_direction d))
  | Raise _ => false
  end.

Definition agrees_on_pressure (p : Z) : bool :=
  match shown_pressure (PInt p) with
  | Ok mmHg => mmHg =? Spec.pressure_mmHg p
  | Raise _ => false
  end.

(** ** A small world to run the program in *)

Module Demo.

Definition cfg : Config :=
  {| TELEGRAM_BOT_TOKEN := Some "123:abc";
     YS_API_KEY := Some "ys";
     OW_API_KEY := Some "ow";
     DD_API_KEY := Some "dd";
     DD_SEC_KEY := Some "sec" |}.

Definition cfg_without_weather_key : Config :=
  {| TELEGRAM_BOT_TOKEN := Some "123:abc";
     YS_API_KEY := Some "ys";
     OW_API_KEY := None;
     DD_API_KEY := Some "dd";
     DD_SEC_KEY := Some "sec" |}.

Fixpoint lookup {A} (table : list (string * A)) (k : string) : option A :=
  match table with
  | [] => None
  | (k', a) :: rest => if String.eqb k' k then Some a else lookup rest k
  end.

(** A [json.loads] that knows the documents of [table] and rejects
    every other text. *)
Definition loads (table : list (string * pyval)) (s : pyval) : result pyval :=
  match s with
  | PStr t =>
      match lookup table t with
      | Some v => Ok v
      | None => Raise JSONDecodeError
      end
  | _ => Raise TypeError
  end.

(** Services that answer by URL; an unknown URL is unreachable. *)
Definition answer (table : list (string * response)) (r : request)
  : result response :=
  match lookup table (url r) with
  | Some resp => Ok resp
  | None => Raise RequestException
  end.

(** A process running at UTC+3. *)
Definition fromtimestamp (ts : pyval) : result datetime :=
  match ts with
  | PInt z =>
      let local := z + 10800 in
      Ok {| hour := (local / 3600) mod 24; minute := (local / 60) mod 60 |}
  | _ => Raise TypeError
  end.

Definition platform (docs : list (string * pyval))
           (services : list (string * response)) : Platform :=
  {| json_loads := loads docs;
     str_other := fun _ => "?";
     datetime_fromtimestamp := fromtimestamp;
     requests_send := answer services |}.

Definition json_response (j : pyval) : response :=
  {| ok := true; json := Ok j; content := "" |}.

Definition error_response : response :=
  {| ok := false; json := Raise JSONDecodeError; content := "" |}.

Definition event_of (body : string) : pyval := PDict [("body", PStr body)].

Definition message_of (fields : list (string * pyval)) : pyval :=
  PDict (("message_id", PInt 7) :: ("chat", PDict [("id", PInt 42)]) :: fields).

Definition update_of (fields : list (string * pyval)) : pyval :=
  PDict [("update_id", PInt 1); ("message", message_of fields)].

Definition weather_url : string := "https://api.openweathermap.org/data/2.5/weather".
Definition address_url : string := "https://cleaner.dadata.ru/api/v1/clean/address".
Definition send_url : string := "https://api.telegram.org/bot123:abc/sendMessage".

Definition weather_fields (visibility : list (string * pyval)) : pyval :=
  PDict ([("weather", PList [PDict [("description", PStr "ясно")]]);
          ("main", PDict [("temp", PInt 21); ("feels_like", PInt 20);
                          ("pressure", PInt 1013); ("humidity", PInt 40)])]
         ++ visibility ++
         [("wind", PDict [("speed", PInt 3); ("deg", PInt 40)]);
          ("sys", PDict [("sunrise", PInt 1700000000);
                         ("sunset", PInt 1700030000)])])%list.

(** What the weather provider sends on a rejected request. *)
Definition weather_refusal : pyval :=
  PDict [("cod", PInt 401); ("message", PStr "Invalid API key")].

Definition candidate (qc lat lon : pyval) : pyval :=
  PList [PDict [("qc", qc); ("geo_lat", lat); ("geo_lon", lon)]].

Definition telegram_ok : response := json_response (PDict [("ok", PBool true)]).

Definition start_update : pyval := update_of [("text", PStr "/start")].

(** The bot's own API answers; [/start] needs nothing else. *)
Definition start_platform : Platform :=
  platform [("start", start_update)] [(send_url, telegram_ok)].

Definition location_update : pyval :=
  update_of [("location", PDict [("latitude", PInt 55); ("longitude", PInt 37)])].

(** The weather provider rejects the request. *)
Definition refusing_platform : Platform :=
  platform [("location", location_update)]
           [(weather_url, json_response weather_refusal); (send_url, telegram_ok)].

(** The weather provider answers in full, without [visibility]. *)
Definition sunny_platform : Platform :=
  platform [("location", location_update)]
           [(weather_url, json_response (weather_fields [])); (send_url, telegram_ok)].

(** An update that is not a message. *)
Definition edited_update : pyval :=
  PDict [("update_id", PInt 1); ("edited_message", message_of [("text", PStr "Казань")])].

Definition edited_platform : Platform :=
  platform [("edited", edited_update)] [(send_url, telegram_ok)].

(** The geocoder resolves every address to the given candidate list. *)
Definition geocoding_platform (candidates : pyval) : Platform :=
  platform [("text", update_of [("text", PStr "Казань")])]
           [(address_url, json_response candidates);
            (weather_url, json_response (weather_fields []));
            (send_url, telegram_ok)].

(** The geocoder is down. *)
Definition failing_geocoder_platform : Platform :=
  platform [] [(address_url, error_response)].

Definition voice_update (duration : Z) : pyval :=
  update_of [("voice", PDict [("file_id", PStr "f1"); ("duration", PInt duration)])].

Definition getfile_url : string := "https://api.telegram.org/bot123:abc/getFile".

Definition voice_platform : Platform :=
  platform [("long", voice_update 31); ("short", voice_update 30)]
           [(send_url, telegram_ok);
            (getfile_url,
             json_response (PDict [("result", PDict [("file_path", PStr "voice/f1.oga")])]))].

Definition visible_platform : Platform :=
  platform [("location", location_update)]
           [(weather_url, json_response (weather_fields [("visibility", PInt 10000)]));
            (send_url, telegram_ok)].

Definition sunny_report (visibility : string) : string :=
  "ясно." ++ nl ++
  "Температура 21 ℃, ощущается как 20 ℃." ++ nl ++
  "Атмосферное давление 760 мм рт. ст." ++ nl ++
  "Влажность 40%." ++ nl ++
  "Видимость " ++ visibility ++ " метров." ++ nl ++
  "Ветер 3 м/с СВ." ++ nl ++
  "Восход солнца 01:13 МСК. Закат 09:33 МСК.".

(** A ["/start"] message stripped of its ids. *)
Definition bare_start_update : pyval :=
  PDict [("message", PDict [("text", PStr "/start")])].

Definition bare_platform : Platform :=
  platform [("bare", bare_start_update)] [(send_url, telegram_ok)].

(** A message that is a location and a ["/start"] text at once. *)
Definition location_and_text_update : pyval :=
  update_of [("text", PStr "/start");
             ("location", PDict [("latitude", PInt 55); ("longitude", PInt 37)])].

Definition location_and_text_platform : Platform :=
  platform [("both", location_and_text_update)]
           [(weather_url, json_response (weather_fields [])); (send_url, telegram_ok)].

(** No geocoder keys. *)
Definition cfg_without_geocoder : Config :=
  {| TELEGRAM_BOT_TOKEN := Some "123:abc";
     YS_API_KEY := Some "ys";
     OW_API_KEY := Some "ow";
     DD_API_KEY := Some "dd";
     DD_SEC_KEY := None |}.

(** A sticker: none of the three kinds the bot reads. *)
Definition sticker_update : pyval :=
  update_of [("sticker", PDict [("emoji", PStr ":)")])].

Definition sticker_platform : Platform :=
  platform [("sticker", sticker_update)] [(send_url, telegram_ok)].

Definition download_url : string :=
  "https://api.telegram.org/file/bot123:abc/voice/f1.oga".

Definition stt_url : string :=
  "https://stt.api.cloud.yandex.net/speech/v1/stt:recognize".

(** The download fails with an error page, which is still its content. *)
Definition failed_download : response :=
  {| ok := false; json := Raise JSONDecodeError; content := "<html>404</html>" |}.

Definition voice_services (stt : response) : list (string * response) :=
  [(getfile_url,
    json_response (PDict [("result", PDict [("file_path", PStr "voice/f1.oga")])]));
   (download_url, failed_download);
   (stt_url, stt);
   (address_url, json_response (candidate (PInt 1) PNone PNone));
   (send_url, telegram_ok)].

Definition deaf_platform : Platform :=
  platform [("short", voice_update 30)] (voice_services error_response).

Definition hearing_platform : Platform :=
  platform [("short", voice_update 30)]
           (voice_services (json_response (PDict [("result", PStr "Казань")]))).

Definition voice_message : pyval :=
  message_of [("voice", PDict [("file_id", PStr "f1"); ("duration", PInt 30)])].

(** Bodies that are JSON values other than an object. *)
Definition scalar_platform : Platform :=
  platform [("5", PInt 5); ("quoted", PStr "a message")] [].

(** A provider that reports halves. *)
Definition half_degrees : pyval :=
  PDict [("weather", PList [PDict [("description", PStr "ясно")]]);
         ("main", PDict [("temp", PFloat (F64.of_quotient 5 2));
                         ("feels_like", PFloat (F64.of_quotient (-3) 2));
                         ("pressure", PInt 1013); ("humidity", PInt 40)]);
         ("wind", PDict [("speed", PInt 3); ("deg", PInt 40)]);
         ("sys", PDict [("sunrise", PInt 1700000000);
                        ("sunset", PInt 1700030000)])].

Definition half_platform : Platform :=
  platform [] [(weather_url, json_response half_degrees)].

Definition half_report : string :=
  "ясно." ++ nl ++
  "Температура 2 ℃, ощущается как -2 ℃." ++ nl ++
  "Атмосферное давление 760 мм рт. ст." ++ nl ++
  "Влажность 40%." ++ nl ++
  "Видимость нет данных метров." ++ nl ++
  "Ветер 3 м/с СВ." ++ nl ++
  "Восход солнца 01:13 МСК. Закат 09:33 МСК.".

(** The text the escape ["\ud800"] decodes to. *)
Definition lone_surrogate : string :=
  String (ascii_of_nat 237) (String (ascii_of_nat 160) (String (ascii_of_nat 128)
  EmptyString)).

Definition surrogate_platform : Platform :=
  platform [("surrogate", update_of [("text", PStr lone_surrogate)])]
           [(send_url, telegram_ok)].

End Demo.

(** [parses pf event update]: [json.loads(event['body'])] yields [update]. *)
Definition parses (pf : Platform) (event update : pyval) : Prop :=
  rbind (py_getitem event (Key "body")) (json_loads pf) = Ok update.

(** [run_spec m Q]: whatever the log, [m] ends with one result [r] after
    one list of requests [out], and [Q r out]. *)
Definition run_spec {A} (m : IO A) (Q : result A -> list request -> Prop) : Prop :=
  exists r out, emits m r out /\ Q r out.

(** The postcondition of [handler]: at most one reply, and no return
    value other than [FUNC_RESPONSE]. *)
Definition handler_post (cfg : Config) (r : result pyval) (o : list request) : Prop :=
  (List.length (sends cfg o) <= 1)%nat /\ forall v, r = Ok v -> v = FUNC_RESPONSE.

(** ** Reading numbers and times back *)

(** [n] is [x] rounded to the nearest integer, an exact half going to the
    even neighbour; a float [m * 2^e] is compared after scaling by [2^-e]. *)
Definition nearest_integer (x : pyval) (n : Z) : Prop :=
  match x with
  | PInt z => n = z
  | PBool b => n = if b then 1 else 0
  | PFloat (S754_zero _) => n = 0
  | PFloat (S754_finite s m e) =>
      let v := if s then - Zpos m else Zpos m in
      match e with
      | Zneg k =>
          2 * Z.abs (n * 2 ^ Zpos k - v) <= 2 ^ Zpos k /\
          (2 * Z.abs (n * 2 ^ Zpos k - v) = 2 ^ Zpos k -> Z.even n = true)
      | _ => n = v * 2 ^ e
      end
  | _ => False
  end.

Definition digit_value (c : ascii) : Z := Z.of_N (N_of_ascii c) - 48.

Definition is_digit (c : ascii) : bool :=
  (0 <=? digit_value c) && (digit_value c <=? 9).

(** [s] is two digits, a colon and two digits, and the digits read [h] and
    [m]. *)
Definition reads_as_HM (h m : Z) (s : string) : bool :=
  match s with
  | String h1 (String h2 (String c (String m1 (String m2 EmptyString)))) =>
      is_digit h1 && is_digit h2 && Ascii.eqb c ":" && is_digit m1 && is_digit m2
      && (10 * digit_value h1 + digit_value h2 =? h)
      && (10 * digit_value m1 + digit_value m2 =? m)
  | _ => false
  end.

Definition strftime_reads_back (h m : Z) : bool :=
  reads_as_HM h m (strftime_HM {| hour := h; minute := m |}).

(** ** Shapes of a whole run *)

(** All five credentials are set. *)
Definition configured (cfg : Config) : Prop :=
  is_None (TELEGRAM_BOT_TOKEN cfg) = false /\
  is_None (OW_API_KEY cfg) = false /\
  is_None (DD_API_KEY cfg) = false /\
  is_None (DD_SEC_KEY cfg) = false /\
  is_None (YS_API_KEY cfg) = false.

(** Whatever the body parses to holds ['message']. *)
Definition has_message (pf : Platform) (event : pyval) : Prop :=
  forall update, parses pf event update -> py_in "message" update = Ok true.

(** The requests a function makes before any reply: none of them is a
    reply, there are at most [n], and a returned value is a [str]. *)
Definition quiet_str (cfg : Config) (n : nat) (r : result pyval) (o : list request)
  : Prop :=
  sends cfg o = [] /\
  (List.length o <= n)%nat /\
  forall v, r = Ok v -> exists s, v = PStr s.

(** The tail of a run of [handler]: nothing, or one text reply addressed
    to the chat and the message the event came from. *)
Definition addressed_reply (cfg : Config) (pf : Platform) (event : pyval)
           (post : list request) : Prop :=
  post = [] \/
  exists update message_in message_id chat_id text,
    parses pf event update /\
    py_getitem update (Key "message") = Ok message_in /\
    py_getitem message_in (Key "message_id") = Ok message_id /\
    py_path message_in [Key "chat"; Key "id"] = Ok chat_id /\
    post = [text_reply cfg chat_id message_id text].

Definition handler_full_post (cfg : Config) (pf : Platform) (event : pyval)
           (r : result pyval) (out : list request) : Prop :=
  exists pre post,
    out = (pre ++ post)%list /\
    sends cfg pre = [] /\
    (List.length pre <= 5)%nat /\
    addressed_reply cfg pf event post /\
    (configured cfg -> has_message pf event -> forall v, r = Ok v -> post <> []).

(** * Properties *)

(** ** Running computations *)

Section Emits.

Context {A B : Type}.

Lemma emits_ret (a : A) : emits (ret a) (Ok a) [].
Proof. intros log. unfold ret. now rewrite app_nil_r. Qed.

Lemma emits_lift (r : result A) : emits (lift r) r [].
Proof. intros log. unfold lift. now rewrite app_nil_r. Qed.

Lemma emits_bind (m : IO A) (f : A -> IO B) a o1 r o2 :
  emits m (Ok a) o1 -> emits (f a) r o2 -> emits (bind m f) r (o1 ++ o2).
Proof.
  intros Hm Hf log. unfold bind. rewrite Hm, Hf. now rewrite app_assoc.
Qed.

Lemma emits_bind_raise (m : IO A) (f : A -> IO B) e o :
  emits m (Raise e) o -> emits (bind m f) (Raise e) o.
Proof. intros Hm log. unfold bind. now rewrite Hm. Qed.

Lemma emits_bind_lift (r : result A) (f : A -> IO B) a r' o :
  r = Ok a -> emits (f a) r' o -> emits (bind (lift r) f) r' o.
Proof. intros -> Hf. exact (emits_bind (lift (Ok a)) f a [] r' o (emits_lift _) Hf). Qed.

Lemma emits_bind_lift_raise (r : result A) (f : A -> IO B) e :
  r = Raise e -> emits (bind (lift r) f) (Raise e) [].
Proof. intros ->. apply emits_bind_raise, emits_lift. Qed.

Lemma emits_unique (m : IO A) r r' o o' :
  emits m r o -> emits m r' o' -> r = r' /\ o = o'.
Proof.
  intros H H'. specialize (H []). specialize (H' []). simpl in *.
  rewrite H in H'. now inversion H'.
Qed.

End Emits.

Lemma emits_call pf (q : request) :
  emits (requests_call pf q) (requests_send pf q) [q].
Proof. intros log. reflexivity. Qed.

Section RunSpec.

Context {A B : Type}.

Lemma run_ret (a : A) (Q : result A -> list request -> Prop) :
  Q (Ok a) [] -> run_spec (ret a) Q.
Proof. intros H. exists (Ok a), []. split; [apply emits_ret | exact H]. Qed.

Lemma run_lift (r : result A) (Q : result A -> list request -> Prop) :
  Q r [] -> run_spec (lift r) Q.
Proof. intros H. exists r, []. split; [apply emits_lift | exact H]. Qed.

Lemma run_bind (m : IO A) (f : A -> IO B) P (Q : result B -> list request -> Prop) :
  run_spec m P ->
  (forall a o1, P (Ok a) o1 -> run_spec (f a) (fun r o2 => Q r (o1 ++ o2)%list)) ->
  (forall e o, P (Raise e) o -> Q (Raise e) o) ->
  run_spec (bind m f) Q.
Proof.
  intros (r & o1 & Hm & HP) Hok Hraise. destruct r as [a | e].
  - destruct (Hok a o1 HP) as (r & o2 & Hf & HQ).
    exists r, (o1 ++ o2)%list. split; [eapply emits_bind; eassumption | exact HQ].
  - exists (Raise e), o1. split; [now apply emits_bind_raise | now apply Hraise].
Qed.

(** Binding a pure step adds no request. *)
Lemma run_bind_lift (r : result A) (f : A -> IO B)
      (Q : result B -> list request -> Prop) :
  (forall a, r = Ok a -> run_spec (f a) Q) ->
  (forall e, r = Raise e -> Q (Raise e) []) ->
  run_spec (bind (lift r) f) Q.
Proof.
  intros Hok Hraise. destruct r as [a | e].
  - destruct (Hok a eq_refl) as (r & o & Hf & HQ).
    exists r, o. split; [now apply emits_bind_lift with a | exact HQ].
  - exists (Raise e), []. split; [now apply emits_bind_lift_raise | now apply Hraise].
Qed.

Lemma run_weaken (m : IO A) (P Q : result A -> list request -> Prop) :
  run_spec m P -> (forall r o, P r o -> Q r o) -> run_spec m Q.
Proof. intros (r & o & Hm & HP) H. exists r, o. auto. Qed.

End RunSpec.

Lemma run_call pf (q : request) (Q : result response -> list request -> Prop) :
  Q (requests_send pf q) [q] -> run_spec (requests_call pf q) Q.
Proof. intros H. exists (requests_send pf q), [q]. split; [apply emits_call | exact H]. Qed.

Ltac run_step :=
  lazymatch goal with
  | |- run_spec (bind (lift _) _) _ => apply run_bind_lift; [intros ? ? | intros ? ?]
  | |- run_spec (ret _) _ => apply run_ret
  | |- run_spec (lift _) _ => apply run_lift
  | |- run_spec (if ?b then _ else _) _ => destruct b eqn:?
  | |- run_spec (let '(_, _) := ?c in _) _ => destruct c
  end.

(** ** Which requests each function makes *)

Section Requests.

Variable cfg : Config.
Variable pf : Platform.

Lemma weather_request_not_send lat lon :
  is_send cfg (weather_request cfg lat lon) = false.
Proof. reflexivity. Qed.

Lemma address_request_not_send address :
  is_send cfg (address_request cfg address) = false.
Proof. reflexivity. Qed.

Lemma getfile_request_not_send file_id :
  is_send cfg (getfile_request cfg file_id) = false.
Proof. reflexivity. Qed.

Lemma download_request_not_send file_path :
  is_send cfg (download_request cfg pf file_path) = false.
Proof. reflexivity. Qed.

Lemma stt_request_not_send audio :
  is_send cfg (stt_request cfg audio) = false.
Proof. reflexivity. Qed.

Lemma sends_app o1 o2 : sends cfg (o1 ++ o2)%list = (sends cfg o1 ++ sends cfg o2)%list.
Proof. apply filter_app. Qed.

Lemma sends_length o : (List.length (sends cfg o) <= List.length o)%nat.
Proof. apply filter_length_le. Qed.

Lemma run_get_weather_info lat lon :
  run_spec (get_weather_info cfg pf lat lon)
           (fun _ o => o = [weather_request cfg lat lon]).
Proof.
  unfold get_weather_info.
  apply run_bind with (P := fun _ o => o = [weather_request cfg lat lon]).
  - now apply run_call.
  - intros r o1 ->. repeat run_step; reflexivity.
  - intros e o ->. reflexivity.
Qed.

Lemma run_get_coords_from_address address :
  run_spec (get_coords_from_address cfg pf address)
           (fun _ o => o = [address_request cfg address]).
Proof.
  unfold get_coords_from_address.
  apply run_bind with (P := fun _ o => o = [address_request cfg address]).
  - now apply run_call.
  - intros r o1 ->. repeat run_step; reflexivity.
  - intros e o ->. reflexivity.
Qed.

Lemma run_get_echo_text address :
  run_spec (get_echo_text cfg pf address) (fun _ o => sends cfg o = []).
Proof.
  unfold get_echo_text.
  eapply run_bind; [apply run_get_coords_from_address | | ].
  - intros [lat lon] o1 ->. cbv beta iota. run_step.
    + eapply run_weaken; [apply run_get_weather_info |].
      intros ? o ->. reflexivity.
    + run_step. reflexivity.
  - intros e o ->. reflexivity.
Qed.

Lemma run_process_location_message location :
  run_spec (process_location_message cfg pf location) (fun _ o => sends cfg o = []).
Proof.
  unfold process_location_message. repeat run_step; try reflexivity.
  eapply run_weaken; [apply run_get_weather_info |].
  intros ? o ->. reflexivity.
Qed.

(** [process_voice_message] sends no reply, and with a [file_id] its first
    request asks for the file. *)
Lemma run_process_voice_message message :
  run_spec (process_voice_message cfg pf message)
           (fun _ o => sends cfg o = [] /\
                       forall file_id,
                         py_path message [Key "voice"; Key "file_id"] = Ok file_id ->
                         exists rest, o = getfile_request cfg file_id :: rest).
Proof.
  unfold process_voice_message.
  apply run_bind_lift; [intros file_id Hid | intros e He; split; [reflexivity | congruence]].
  assert (Hfirst : forall rest file_id',
             py_path message [Key "voice"; Key "file_id"] = Ok file_id' ->
             exists rest', (getfile_request cfg file_id :: rest)
                           = getfile_request cfg file_id' :: rest').
  { intros rest file_id' Hid'. exists rest. congruence. }
  apply run_bind with (P := fun _ o => o = [getfile_request cfg file_id]);
    [now apply run_call | | intros e o ->; split; [reflexivity | apply Hfirst]].
  intros r_file o1 ->. run_step; [| split; [reflexivity | apply Hfirst]].
  apply run_bind with (P := fun _ o => o = [download_request cfg pf a]);
    [now apply run_call | | intros e o ->; split; [reflexivity | apply Hfirst]].
  intros r_download o2 ->. cbv zeta.
  apply run_bind with (P := fun _ o => o = [stt_request cfg (content r_download)]);
    [now apply run_call | | intros e o ->; split; [reflexivity | apply Hfirst]].
  intros r_stt o3 ->. run_step.
  - run_step; [| split; [reflexivity | apply Hfirst]].
    eapply run_weaken; [apply run_get_echo_text |].
    intros ? o Ho. cbv beta. split; [| apply Hfirst].
    rewrite !sends_app, Ho. reflexivity.
  - run_step. split; [reflexivity | apply Hfirst].
Qed.

Lemma run_send_message text message :
  run_spec (send_message cfg pf text message) (fun _ o => (List.length o <= 1)%nat).
Proof.
  unfold send_message. do 2 (run_step; [| simpl; lia]). cbv zeta.
  destruct text; try (run_step; simpl; lia).
  - apply run_bind with (P := fun _ o => (List.length o <= 1)%nat);
      [apply run_call; simpl; lia | | intros e o Ho; exact Ho].
    intros r o Ho. run_step. now rewrite app_nil_r.
  - apply run_bind with (P := fun _ o => (List.length o <= 1)%nat);
      [apply run_call; simpl; lia | | intros e o Ho; exact Ho].
    intros r o Ho. run_step. now rewrite app_nil_r.
Qed.

Lemma handler_post_return : handler_post cfg (Ok FUNC_RESPONSE) [].
Proof. split; [simpl; lia | now intros v [= <-]]. Qed.

Lemma handler_post_raise e : handler_post cfg (Raise e) [].
Proof. split; [simpl; lia | discriminate]. Qed.

(** The last two statements of [handler], after requests without a send. *)
Lemma run_reply echo_text message_in o1 :
  sends cfg o1 = [] ->
  run_spec (bind (send_message cfg pf echo_text message_in) (fun _ => ret FUNC_RESPONSE))
           (fun r o2 => handler_post cfg r (o1 ++ o2)).
Proof.
  intros Ho1. eapply run_bind; [apply run_send_message | |].
  - intros ? o Hlen. cbv beta in Hlen. run_step. rewrite app_nil_r. split.
    + rewrite sends_app, Ho1. simpl. pose proof (sends_length o). lia.
    + now intros v [= <-].
  - intros e o Hlen. cbv beta in Hlen. split; [| discriminate].
    rewrite sends_app, Ho1. simpl. pose proof (sends_length o). lia.
Qed.

Lemma handler_run event context :
  run_spec (handler cfg pf event context) (handler_post cfg).
Proof.
  unfold handler.
  repeat first
    [ apply handler_post_return
    | apply handler_post_raise
    | apply (run_reply _ _ [] eq_refl)
    | eapply run_bind;
        [ first [ apply run_process_location_message
                | apply run_get_echo_text
                | eapply run_weaken;
                    [apply run_process_voice_message | intros ? ? [Hs _]; exact Hs] ]
        | intros ? ? ?; cbv zeta; now apply run_reply
        | intros ? ? Hs; split; [rewrite Hs; simpl; lia | discriminate] ]
    | run_step ].
Qed.

End Requests.

(** ** Single paths through the program *)

Section Paths.

Variable cfg : Config.
Variable pf : Platform.

(** [send_message] with a text and a message that carries its ids posts
    one [sendMessage] request. *)
Lemma emits_send_message_text text message message_id chat_id :
  py_getitem message (Key "message_id") = Ok message_id ->
  py_path message [Key "chat"; Key "id"] = Ok chat_id ->
  emits (send_message cfg pf (PStr text) message)
        (rbind (requests_send pf (text_reply cfg chat_id message_id text))
               (fun _ => Ok tt))
        [text_reply cfg chat_id message_id text].
Proof.
  intros Hid Hchat log. unfold send_message, bind, lift.
  rewrite Hid, Hchat. cbn [dict_set String.eqb Ascii.eqb Bool.eqb].
  unfold requests_call, text_reply.
  destruct (requests_send pf _); reflexivity.
Qed.

(** The same, followed by [return FUNC_RESPONSE]. *)
Lemma emits_reply_text text message message_id chat_id :
  py_getitem message (Key "message_id") = Ok message_id ->
  py_path message [Key "chat"; Key "id"] = Ok chat_id ->
  emits (bind (send_message cfg pf (PStr text) message) (fun _ => ret FUNC_RESPONSE))
        (rbind (requests_send pf (text_reply cfg chat_id message_id text))
               (fun _ => Ok FUNC_RESPONSE))
        [text_reply cfg chat_id message_id text].
Proof.
  intros Hid Hchat log. unfold bind.
  rewrite (emits_send_message_text text message message_id chat_id Hid Hchat log).
  destruct (requests_send pf _); reflexivity.
Qed.

(** A message without [message_id] gets no reply at all. *)
Lemma emits_send_message_no_id text message e :
  py_getitem message (Key "message_id") = Raise e ->
  emits (send_message cfg pf text message) (Raise e) [].
Proof. intros H. unfold send_message. now apply emits_bind_lift_raise. Qed.

Lemma text_reply_is_send chat_id message_id text :
  is_send cfg (text_reply cfg chat_id message_id text) = true.
Proof.
  unfold is_send, text_reply, send_request. cbn [method url].
  now rewrite String.eqb_refl.
Qed.

End Paths.

(** A run from the empty log tells the run from every log. *)
Lemma emits_from_nil {A} (m : IO A) Q r out :
  run_spec m Q -> m [] = (r, out) -> emits m r out.
Proof.
  intros (r' & out' & Hrun & _) H. pose proof (Hrun []) as H'.
  rewrite H in H'. cbn [app] in H'. now injection H' as -> ->.
Qed.

Lemma emits_requests_call pf q resp :
  requests_send pf q = Ok resp -> emits (requests_call pf q) (Ok resp) [q].
Proof. intros H. rewrite <- H. apply emits_call. Qed.

(** A computed text, then the last two statements of [handler]. *)
Lemma emits_then_reply cfg pf (m : IO pyval) message_in echo o message_id chat_id :
  emits m (Ok (PStr echo)) o ->
  py_getitem message_in (Key "message_id") = Ok message_id ->
  py_path message_in [Key "chat"; Key "id"] = Ok chat_id ->
  emits (bind m (fun echo_text =>
                   bind (send_message cfg pf echo_text message_in)
                        (fun _ => ret FUNC_RESPONSE)))
        (rbind (requests_send pf (text_reply cfg chat_id message_id echo))
               (fun _ => Ok FUNC_RESPONSE))
        (o ++ [text_reply cfg chat_id message_id echo]).
Proof.
  intros Hm Hid Hchat. eapply emits_bind; [exact Hm |].
  now apply emits_reply_text.
Qed.

(** The three requests of [process_voice_message], each one answered. *)
Lemma process_voice_message_pipeline cfg pf message file_id r_file j file_path
      r_download r_stt r o :
  py_path message [Key "voice"; Key "file_id"] = Ok file_id ->
  requests_send pf (getfile_request cfg file_id) = Ok r_file ->
  json r_file = Ok j ->
  py_path j [Key "result"; Key "file_path"] = Ok file_path ->
  requests_send pf (download_request cfg pf file_path) = Ok r_download ->
  requests_send pf (stt_request cfg (content r_download)) = Ok r_stt ->
  emits (if ok r_stt
         then bind (lift (rbind (json r_stt) (fun j => py_getitem j (Key "result"))))
                   (fun address => get_echo_text cfg pf address)
         else ret (PStr not_recognized_text)) r o ->
  emits (process_voice_message cfg pf message) r
        (getfile_request cfg file_id :: download_request cfg pf file_path
         :: stt_request cfg (content r_download) :: o).
Proof.
  intros Hid Hfile Hj Hpath Hdownload Hstt Hrest.
  assert (Hcall : forall q resp,
             requests_send pf q = Ok resp -> emits (requests_call pf q) (Ok resp) [q]).
  { intros q resp H. rewrite <- H. apply emits_call. }
  unfold process_voice_message.
  eapply emits_bind_lift; [exact Hid |].
  refine (emits_bind _ _ _ [_] _ _ (Hcall _ _ Hfile) _).
  eapply emits_bind_lift; [rewrite Hj; exact Hpath |].
  refine (emits_bind _ _ _ [_] _ _ (Hcall _ _ Hdownload) _). cbv zeta.
  refine (emits_bind _ _ _ [_] _ _ (Hcall _ _ Hstt) _).
  exact Hrest.
Qed.

(** ** The entry point *)

(** C1 (as amended).  Every invocation makes at most one outbound reply and
    returns nothing but the fixed success envelope when it returns.  On the
    ["/start"] branch, for a message that carries [message_id] and
    [chat.id], exactly one reply is sent, the onboarding text, and the
    envelope is returned as soon as the send call itself returns. *)
Theorem handler_sends_at_most_once cfg pf event context :
  (exists r out,
      emits (handler cfg pf event context) r out /\
      (List.length (sends cfg out) <= 1)%nat /\
      (forall v, r = Ok v -> v = FUNC_RESPONSE))
  /\
  (forall update message_in message_id chat_id,
      is_None (TELEGRAM_BOT_TOKEN cfg) = false ->
      is_None (OW_API_KEY cfg) = false ->
      parses pf event update ->
      py_in "message" update = Ok true ->
      py_getitem update (Key "message") = Ok message_in ->
      py_in "location" message_in = Ok false ->
      py_in "text" message_in = Ok true ->
      py_getitem message_in (Key "text") = Ok (PStr "/start") ->
      py_getitem message_in (Key "message_id") = Ok message_id ->
      py_path message_in [Key "chat"; Key "id"] = Ok chat_id ->
      let reply := text_reply cfg chat_id message_id start_text in
      emits (handler cfg pf event context)
            (rbind (requests_send pf reply) (fun _ => Ok FUNC_RESPONSE))
            [reply]
      /\ sends cfg [reply] = [reply]).
Proof.
  split.
  - destruct (handler_run cfg pf event context) as (r & out & Hrun & Hlen & Hret).
    exists r, out. auto.
  - intros update message_in message_id chat_id Htg How Hparse Hmsg Hin Hloc Htext
           Hstart Hid Hchat reply.
    split.
    + unfold handler. rewrite Htg, How.
      eapply emits_bind_lift; [exact Hparse |].
      eapply emits_bind_lift; [exact Hmsg |]. cbn [negb].
      eapply emits_bind_lift; [exact Hin |]. cbv zeta.
      eapply emits_bind_lift; [exact Hloc |].
      eapply emits_bind_lift; [exact Htext |].
      eapply emits_bind_lift; [exact Hstart |].
      cbn [py_eq_str]. rewrite String.eqb_refl.
      now apply emits_reply_text.
    + subst reply. unfold sends. cbn [filter]. now rewrite text_reply_is_send.
Qed.

Lemma handler_sends_at_most_once_witness :
  let reply := text_reply Demo.cfg (PInt 42) (PInt 7) start_text in
  emits (handler Demo.cfg Demo.start_platform (Demo.event_of "start") PNone)
        (Ok FUNC_RESPONSE) [reply]
  /\ sends Demo.cfg [reply] = [reply].
Proof.
  exact (proj2 (handler_sends_at_most_once Demo.cfg Demo.start_platform
                  (Demo.event_of "start") PNone)
               Demo.start_update (Demo.message_of [("text", PStr "/start")])
               (PInt 7) (PInt 42)
               eq_refl eq_refl eq_refl eq_refl eq_refl eq_refl eq_refl eq_refl
               eq_refl eq_refl).
Defined.

(** C1 as stated fails: the body parses and holds a message with a
    location, the weather provider answers with a refusal that has no
    ['weather'] field, and the handler raises [KeyError] instead of
    returning the envelope.  And a ["/start"] message without [message_id]
    gets no reply: [send_message] raises before it posts. *)
Lemma handler_raises_on_weather_refusal :
  parses Demo.refusing_platform (Demo.event_of "location") Demo.location_update /\
  py_in "message" Demo.location_update = Ok true /\
  handler Demo.cfg Demo.refusing_platform (Demo.event_of "location") PNone [] =
    (Raise (KeyError (PStr "weather")), [weather_request Demo.cfg (PInt 55) (PInt 37)]) /\
  ~ (exists out,
        emits (handler Demo.cfg Demo.refusing_platform (Demo.event_of "location") PNone)
              (Ok FUNC_RESPONSE) out) /\
  handler Demo.cfg Demo.bare_platform (Demo.event_of "bare") PNone [] =
    (Raise (KeyError (PStr "message_id")), []).
Proof.
  repeat split; try reflexivity.
  intros [out H]. specialize (H []). vm_compute in H. discriminate H.
Qed.

(** C2.  When the bot token is unset, or the weather key is unset, or the
    body parses to an update without ['message'] (for a dict: the key is
    absent), the handler returns [{'statusCode': 200, 'body': ''}] and makes
    no request at all. *)
Theorem handler_guards_noop cfg pf event context :
  TELEGRAM_BOT_TOKEN cfg = None \/
  OW_API_KEY cfg = None \/
  (exists update, parses pf event update /\ py_in "message" update = Ok false) ->
  emits (handler cfg pf event context)
        (Ok (PDict [("statusCode", PInt 200); ("body", PStr "")])) [].
Proof.
  intros [Htg | [How | (update & Hparse & Hmsg)]]; unfold handler.
  - rewrite Htg. apply emits_ret.
  - rewrite How. destruct (is_None (TELEGRAM_BOT_TOKEN cfg)); apply emits_ret.
  - destruct (is_None (TELEGRAM_BOT_TOKEN cfg)); [apply emits_ret |].
    destruct (is_None (OW_API_KEY cfg)); [apply emits_ret |].
    eapply emits_bind_lift; [exact Hparse |].
    eapply emits_bind_lift; [exact Hmsg |].
    apply emits_ret.
Qed.

Lemma handler_guards_noop_witness :
  emits (handler Demo.cfg_without_weather_key Demo.start_platform
                 (Demo.event_of "start") PNone)
        (Ok (PDict [("statusCode", PInt 200); ("body", PStr "")])) []
  /\
  emits (handler Demo.cfg Demo.edited_platform (Demo.event_of "edited") PNone)
        (Ok (PDict [("statusCode", PInt 200); ("body", PStr "")])) [].
Proof.
  split.
  - apply handler_guards_noop. right. left. reflexivity.
  - apply handler_guards_noop. right. right.
    exists Demo.edited_update. split; reflexivity.
Defined.

(** C3 as stated fails: with both credentials set, a body that is not JSON
    makes the handler raise [JSONDecodeError], and an event without
    ['body'] makes it raise [KeyError]. *)
Lemma handler_raises_on_unparsable_body :
  handler Demo.cfg Demo.start_platform (Demo.event_of "not json") PNone [] =
    (Raise JSONDecodeError, [])
  /\
  handler Demo.cfg Demo.start_platform (PDict []) PNone [] =
    (Raise (KeyError (PStr "body")), []).
Proof. split; reflexivity. Qed.

(** C3 (as amended).  When [json.loads(event['body'])] raises, because the
    event has no body or the body is not JSON, the handler makes no request;
    it returns the envelope if the bot token or the weather key is unset, and
    lets the exception reach the caller otherwise. *)
Theorem handler_unparsable_body cfg pf event context e :
  rbind (py_getitem event (Key "body")) (json_loads pf) = Raise e ->
  emits (handler cfg pf event context)
        (if is_None (TELEGRAM_BOT_TOKEN cfg) || is_None (OW_API_KEY cfg)
         then Ok FUNC_RESPONSE else Raise e)
        [].
Proof.
  intros H. unfold handler.
  destruct (is_None (TELEGRAM_BOT_TOKEN cfg)); [apply emits_ret |].
  destruct (is_None (OW_API_KEY cfg)); [apply emits_ret |].
  now apply emits_bind_lift_raise.
Qed.

Lemma handler_unparsable_body_witness :
  emits (handler Demo.cfg Demo.start_platform (Demo.event_of "not json") PNone)
        (Raise JSONDecodeError) []
  /\
  emits (handler Demo.cfg_without_weather_key Demo.start_platform (PDict []) PNone)
        (Ok FUNC_RESPONSE) [].
Proof.
  split.
  - exact (handler_unparsable_body Demo.cfg Demo.start_platform
             (Demo.event_of "not json") PNone JSONDecodeError eq_refl).
  - exact (handler_unparsable_body Demo.cfg_without_weather_key Demo.start_platform
             (PDict []) PNone (KeyError (PStr "body")) eq_refl).
Defined.

(** ** The Coordinate Resolver *)

Lemma py_eq_int_zero z : py_eq_int (PInt z) 0 = true <-> z = 0.
Proof. apply Z.eqb_eq. Qed.

(** C4 as stated fails: with the geocoder unreachable the HTTP call fails by
    raising, and [get_coords_from_address] raises the same instead of
    returning [(None, None)]. *)
Lemma get_coords_from_address_raises_when_unreachable :
  let address := PStr "Казань" in
  requests_send Demo.start_platform (address_request Demo.cfg address)
  = Raise RequestException
  /\
  get_coords_from_address Demo.cfg Demo.start_platform address []
  = (Raise RequestException, [address_request Demo.cfg address])
  /\
  ~ (exists out,
        emits (get_coords_from_address Demo.cfg Demo.start_platform address)
              (Ok (PNone, PNone)) out).
Proof.
  intros address. repeat split; try reflexivity.
  intros [out H]. specialize (H []). vm_compute in H. discriminate H.
Qed.

(** C4 (as amended).  [get_coords_from_address] makes one request.  When the
    call raises, it raises the same.  When the call is answered, it returns
    [(None, None)] if the answer is not [ok]; if it is [ok] and the first
    candidate has a quality code, it returns that candidate's
    [(geo_lat, geo_lon)] when the code [== 0] and [(None, None)] for any
    other code.  For an integer code, [== 0] is being 0. *)
Theorem get_coords_from_address_quality cfg pf address :
  let run := emits (get_coords_from_address cfg pf address) in
  let request := address_request cfg address in
  (forall e, requests_send pf request = Raise e -> run (Raise e) [request])
  /\
  (forall resp,
      requests_send pf request = Ok resp ->
      (ok resp = false -> run (Ok (PNone, PNone)) [request])
      /\
      (forall candidate rest qc,
          ok resp = true ->
          json resp = Ok (PList (candidate :: rest)) ->
          py_getitem candidate (Key "qc") = Ok qc ->
          (py_eq_int qc 0 = false -> run (Ok (PNone, PNone)) [request])
          /\
          (forall geo_lat geo_lon,
              py_eq_int qc 0 = true ->
              py_getitem candidate (Key "geo_lat") = Ok geo_lat ->
              py_getitem candidate (Key "geo_lon") = Ok geo_lon ->
              run (Ok (geo_lat, geo_lon)) [request])))
  /\
  (forall z, py_eq_int (PInt z) 0 = true <-> z = 0).
Proof.
  intros run request. subst run request. split; [| split].
  - intros e Hraise. unfold get_coords_from_address.
    apply emits_bind_raise. rewrite <- Hraise. apply emits_call.
  - intros resp Hresp.
    assert (Hcall : forall log,
               requests_call pf (address_request cfg address) log =
               (Ok resp, (log ++ [address_request cfg address])%list)).
    { intros log. unfold requests_call. now rewrite Hresp. }
    split.
    + intros Hok log. unfold get_coords_from_address, bind.
      rewrite Hcall, Hok. reflexivity.
    + intros candidate rest qc Hok Hjson Hq.
      assert (Hfirst : rbind (json resp) (fun j => py_getitem j (Index 0))
                       = Ok candidate).
      { rewrite Hjson. reflexivity. }
      split.
      * intros Hqc log. unfold get_coords_from_address, bind, lift.
        rewrite Hcall, Hok, Hfirst, Hq, Hqc. reflexivity.
      * intros geo_lat geo_lon Hqc Hlat Hlon log.
        unfold get_coords_from_address, bind, lift.
        rewrite Hcall, Hok, Hfirst, Hq, Hqc, Hlat, Hlon. reflexivity.
  - intros z. apply py_eq_int_zero.
Qed.

Lemma get_coords_from_address_quality_witness :
  let address := PStr "Казань" in
  let lat := PFloat (F64.of_Z 55) in
  let lon := PFloat (F64.of_Z 37) in
  emits (get_coords_from_address Demo.cfg Demo.start_platform address)
        (Raise RequestException) [address_request Demo.cfg address]
  /\
  emits (get_coords_from_address Demo.cfg Demo.failing_geocoder_platform address)
        (Ok (PNone, PNone)) [address_request Demo.cfg address]
  /\
  emits (get_coords_from_address
           Demo.cfg (Demo.geocoding_platform (Demo.candidate (PInt 0) lat lon)) address)
        (Ok (lat, lon)) [address_request Demo.cfg address]
  /\
  emits (get_coords_from_address
           Demo.cfg (Demo.geocoding_platform (Demo.candidate (PInt 1) lat lon)) address)
        (Ok (PNone, PNone)) [address_request Demo.cfg address].
Proof.
  intros address lat lon. split; [| split; [| split]].
  - exact (proj1 (get_coords_from_address_quality Demo.cfg Demo.start_platform address)
                 RequestException eq_refl).
  - exact (proj1 (proj1 (proj2 (get_coords_from_address_quality
                                  Demo.cfg Demo.failing_geocoder_platform address))
                        Demo.error_response eq_refl)
                 eq_refl).
  - destruct (proj1 (proj2 (get_coords_from_address_quality
                              Demo.cfg
                              (Demo.geocoding_platform (Demo.candidate (PInt 0) lat lon))
                              address))
                    (Demo.json_response (Demo.candidate (PInt 0) lat lon)) eq_refl)
      as (_ & Hok).
    destruct (Hok (PDict [("qc", PInt 0); ("geo_lat", lat); ("geo_lon", lon)]) []
                  (PInt 0) eq_refl eq_refl eq_refl) as (_ & Hzero).
    exact (Hzero lat lon eq_refl eq_refl eq_refl).
  - destruct (proj1 (proj2 (get_coords_from_address_quality
                              Demo.cfg
                              (Demo.geocoding_platform (Demo.candidate (PInt 1) lat lon))
                              address))
                    (Demo.json_response (Demo.candidate (PInt 1) lat lon)) eq_refl)
      as (_ & Hok).
    destruct (Hok (PDict [("qc", PInt 1); ("geo_lat", lat); ("geo_lon", lon)]) []
                  (PInt 1) eq_refl eq_refl eq_refl) as (Hother & _).
    exact (Hother eq_refl).
Defined.

(** ** From an address to the reply text *)

Lemma py_and_falsy lat lon :
  py_truthy lat = false \/ py_truthy lon = false -> py_truthy (py_and lat lon) = false.
Proof.
  intros [H | H]; unfold py_and.
  - now rewrite H.
  - destruct (py_truthy lat) eqn:Hlat; assumption.
Qed.

(** C10.  When the Resolver returns a pair of which the latitude or the
    longitude is falsy, [get_echo_text] makes no weather request and returns
    the "place not found" text, which quotes the address; [0] and the empty
    string are falsy although they are not [None]. *)
Theorem get_echo_text_falsy_coords cfg pf address lat lon out :
  emits (get_coords_from_address cfg pf address) (Ok (lat, lon)) out ->
  py_truthy lat = false \/ py_truthy lon = false ->
  emits (get_echo_text cfg pf address)
        (Ok (PStr ("Я не нашел населенный пункт " ++ quote ++ py_str pf address
                   ++ quote ++ ".")))
        out
  /\ out = [address_request cfg address]
  /\ py_truthy (PInt 0) = false /\ py_truthy (PStr "") = false.
Proof.
  intros Hcoords Hfalsy. split; [| split; [| split; reflexivity]].
  - intros log. unfold get_echo_text, bind. rewrite Hcoords.
    rewrite (py_and_falsy lat lon Hfalsy). reflexivity.
  - destruct (run_get_coords_from_address cfg pf address) as (r & o & Hrun & ->).
    now destruct (emits_unique _ _ _ _ _ Hcoords Hrun).
Qed.

Lemma get_echo_text_falsy_coords_witness :
  let address := PStr "0, 37" in
  let pf := Demo.geocoding_platform (Demo.candidate (PInt 0) (PInt 0) (PStr "37.0")) in
  emits (get_echo_text Demo.cfg pf address)
        (Ok (PStr ("Я не нашел населенный пункт " ++ quote ++ "0, 37" ++ quote ++ ".")))
        [address_request Demo.cfg address].
Proof.
  intros address pf.
  refine (proj1 (get_echo_text_falsy_coords Demo.cfg pf address (PInt 0) (PStr "37.0")
                   [address_request Demo.cfg address] _ (or_introl eq_refl))).
  intros log. reflexivity.
Defined.

(** ** Voice messages *)


Lemma emits_send_message_no_chat cfg pf text message message_id e :
  py_getitem message (Key "message_id") = Ok message_id ->
  py_path message [Key "chat"; Key "id"] = Raise e ->
  emits (send_message cfg pf text message) (Raise e) [].
Proof.
  intros Hid Hchat. unfold send_message.
  eapply emits_bind_lift; [exact Hid |].
  now apply emits_bind_lift_raise.
Qed.

(** C7.  For a voice message with an integer duration, the speech key being
    set: above 30 seconds every request the handler makes is a reply, so
    nothing is downloaded or transcribed, and for a message that carries its
    ids the one request is the reply with the fixed "too long" text.  At 30
    seconds or below the handler transcribes: its first request asks the
    platform for the voice file, and when that, the download and the
    recogniser are answered, the handler has asked for the file, fetched it
    and sent its content to the recogniser, and then replies with the fixed
    "not recognised" text on a failure status, or on success with what
    [get_echo_text] returns for the recognised text, after the requests
    [get_echo_text] makes. *)
Theorem handler_voice_duration cfg pf event context update message_in d :
  is_None (TELEGRAM_BOT_TOKEN cfg) = false ->
  is_None (OW_API_KEY cfg) = false ->
  is_None (YS_API_KEY cfg) = false ->
  parses pf event update ->
  py_in "message" update = Ok true ->
  py_getitem update (Key "message") = Ok message_in ->
  py_in "location" message_in = Ok false ->
  py_in "text" message_in = Ok false ->
  py_in "voice" message_in = Ok true ->
  py_path message_in [Key "voice"; Key "duration"] = Ok (PInt d) ->
  (30 < d ->
   exists r out,
     emits (handler cfg pf event context) r out /\
     sends cfg out = out /\
     forall message_id chat_id,
       py_getitem message_in (Key "message_id") = Ok message_id ->
       py_path message_in [Key "chat"; Key "id"] = Ok chat_id ->
       let reply :=
         text_reply cfg chat_id message_id
           "Я не могу понять голосовое сообщение длительностью более 30 секунд." in
       out = [reply] /\
       r = rbind (requests_send pf reply) (fun _ => Ok FUNC_RESPONSE))
  /\
  (d <= 30 ->
   forall file_id,
     py_path message_in [Key "voice"; Key "file_id"] = Ok file_id ->
     exists r rest,
       emits (handler cfg pf event context) r (getfile_request cfg file_id :: rest))
  /\
  (d <= 30 ->
   forall file_id r_file j file_path r_download r_stt message_id chat_id,
     py_path message_in [Key "voice"; Key "file_id"] = Ok file_id ->
     requests_send pf (getfile_request cfg file_id) = Ok r_file ->
     json r_file = Ok j ->
     py_path j [Key "result"; Key "file_path"] = Ok file_path ->
     requests_send pf (download_request cfg pf file_path) = Ok r_download ->
     requests_send pf (stt_request cfg (content r_download)) = Ok r_stt ->
     py_getitem message_in (Key "message_id") = Ok message_id ->
     py_path message_in [Key "chat"; Key "id"] = Ok chat_id ->
     let transcription :=
       [getfile_request cfg file_id; download_request cfg pf file_path;
        stt_request cfg (content r_download)] in
     let replied text o :=
       emits (handler cfg pf event context)
             (rbind (requests_send pf (text_reply cfg chat_id message_id text))
                    (fun _ => Ok FUNC_RESPONSE))
             (transcription ++ o ++ [text_reply cfg chat_id message_id text]) in
     (ok r_stt = false ->
      replied "Не удалось распознать голосовое сообщение." [])
     /\
     (forall recognized address echo o,
         ok r_stt = true ->
         json r_stt = Ok recognized ->
         py_getitem recognized (Key "result") = Ok address ->
         emits (get_echo_text cfg pf address) (Ok (PStr echo)) o ->
         replied echo o)).
Proof.
  intros Htg How Hys Hparse Hmsg Hin Hloc Htext Hvoice Hdur.
  assert (Hreduce : forall r out,
             emits (if d <=? 30
                    then bind (process_voice_message cfg pf message_in)
                              (fun echo_text =>
                                 bind (send_message cfg pf echo_text message_in)
                                      (fun _ => ret FUNC_RESPONSE))
                    else bind (send_message cfg pf (PStr voice_too_long_text) message_in)
                              (fun _ => ret FUNC_RESPONSE))
                   r out ->
             emits (handler cfg pf event context) r out).
  { intros r out H. unfold handler. rewrite Htg, How, Hys.
    eapply emits_bind_lift; [exact Hparse |].
    eapply emits_bind_lift; [exact Hmsg |]. cbn [negb].
    eapply emits_bind_lift; [exact Hin |]. cbv zeta.
    eapply emits_bind_lift; [exact Hloc |].
    eapply emits_bind_lift; [exact Htext |].
    eapply emits_bind_lift; [exact Hvoice |].
    eapply emits_bind_lift; [exact Hdur |].
    eapply emits_bind_lift; [reflexivity |].
    exact H. }
  split; [| split].
  - intros Hlong.
    assert (Hleb : (d <=? 30) = false) by (apply Z.leb_gt; lia).
    rewrite Hleb in Hreduce.
    destruct (py_getitem message_in (Key "message_id")) as [message_id | e] eqn:Hid.
    + destruct (py_path message_in [Key "chat"; Key "id"]) as [chat_id | e] eqn:Hchat.
      * exists (rbind (requests_send pf (text_reply cfg chat_id message_id voice_too_long_text))
                      (fun _ => Ok FUNC_RESPONSE)),
               [text_reply cfg chat_id message_id voice_too_long_text].
        split; [apply Hreduce; now apply emits_reply_text |].
        split.
        -- unfold sends. cbn [filter]. now rewrite text_reply_is_send.
        -- intros message_id' chat_id' [= <-] [= <-]. split; reflexivity.
      * exists (Raise e), []. split; [| split; [reflexivity | discriminate]].
        apply Hreduce. apply emits_bind_raise.
        now apply emits_send_message_no_chat with message_id.
    + exists (Raise e), []. split; [| split; [reflexivity | discriminate]].
      apply Hreduce. apply emits_bind_raise.
      now apply emits_send_message_no_id.
  - intros Hshort file_id Hfile.
    assert (Hleb : (d <=? 30) = true) by (apply Z.leb_le; lia).
    rewrite Hleb in Hreduce.
    destruct (run_process_voice_message cfg pf message_in)
      as (r1 & o1 & Hrun1 & Hquiet & Hfirst).
    destruct (Hfirst file_id Hfile) as (rest & ->).
    destruct r1 as [echo_text | e].
    + destruct (run_reply cfg pf echo_text message_in [] eq_refl)
        as (r2 & o2 & Hrun2 & _).
      exists r2, (rest ++ o2)%list. apply Hreduce.
      exact (emits_bind _ _ _ _ _ _ Hrun1 Hrun2).
    + exists (Raise e), rest. apply Hreduce. now apply emits_bind_raise.
  - intros Hshort file_id r_file j file_path r_download r_stt message_id chat_id
           Hfile Hgetfile Hj Hpath Hdownload Hstt Hid Hchat transcription replied.
    subst transcription replied. cbv beta.
    assert (Hleb : (d <=? 30) = true) by (apply Z.leb_le; lia).
    rewrite Hleb in Hreduce.
    assert (Hvoice_run : forall text o,
               emits (if ok r_stt
                      then bind (lift (rbind (json r_stt)
                                             (fun j => py_getitem j (Key "result"))))
                                (fun address => get_echo_text cfg pf address)
                      else ret (PStr not_recognized_text)) (Ok (PStr text)) o ->
               emits (handler cfg pf event context)
                     (rbind (requests_send pf (text_reply cfg chat_id message_id text))
                            (fun _ => Ok FUNC_RESPONSE))
                     ([getfile_request cfg file_id; download_request cfg pf file_path;
                       stt_request cfg (content r_download)]
                        ++ o ++ [text_reply cfg chat_id message_id text])).
    { intros text o Hrest. apply Hreduce.
      exact (emits_then_reply cfg pf _ message_in text _ message_id chat_id
               (process_voice_message_pipeline
                  cfg pf message_in file_id r_file j file_path r_download r_stt _ o
                  Hfile Hgetfile Hj Hpath Hdownload Hstt Hrest)
               Hid Hchat). }
    split.
    + intros Hok. apply Hvoice_run. rewrite Hok. apply emits_ret.
    + intros recognized address echo o Hok Hjson Hresult Hecho.
      apply Hvoice_run. rewrite Hok.
      eapply emits_bind_lift; [rewrite Hjson; exact Hresult |]. exact Hecho.
Qed.

Lemma handler_voice_duration_witness :
  emits (handler Demo.cfg Demo.voice_platform (Demo.event_of "long") PNone)
        (Ok FUNC_RESPONSE)
        [text_reply Demo.cfg (PInt 42) (PInt 7)
           "Я не могу понять голосовое сообщение длительностью более 30 секунд."]
  /\
  (exists r rest,
      emits (handler Demo.cfg Demo.voice_platform (Demo.event_of "short") PNone) r
            (getfile_request Demo.cfg (PStr "f1") :: rest))
  /\
  emits (handler Demo.cfg Demo.deaf_platform (Demo.event_of "short") PNone)
        (Ok FUNC_RESPONSE)
        [getfile_request Demo.cfg (PStr "f1");
         download_request Demo.cfg Demo.deaf_platform (PStr "voice/f1.oga");
         stt_request Demo.cfg "<html>404</html>";
         text_reply Demo.cfg (PInt 42) (PInt 7)
           "Не удалось распознать голосовое сообщение."]
  /\
  emits (handler Demo.cfg Demo.hearing_platform (Demo.event_of "short") PNone)
        (Ok FUNC_RESPONSE)
        [getfile_request Demo.cfg (PStr "f1");
         download_request Demo.cfg Demo.hearing_platform (PStr "voice/f1.oga");
         stt_request Demo.cfg "<html>404</html>";
         address_request Demo.cfg (PStr "Казань");
         text_reply Demo.cfg (PInt 42) (PInt 7)
           ("Я не нашел населенный пункт " ++ quote ++ "Казань" ++ quote ++ ".")].
Proof.
  split; [| split; [| split]].
  - destruct (proj1 (handler_voice_duration
                       Demo.cfg Demo.voice_platform (Demo.event_of "long") PNone
                       (Demo.voice_update 31) _ 31
                       eq_refl eq_refl eq_refl eq_refl eq_refl eq_refl eq_refl eq_refl
                       eq_refl eq_refl) eq_refl)
      as (r & out & Hrun & _ & Hids).
    destruct (Hids (PInt 7) (PInt 42) eq_refl eq_refl) as [Hout Hr].
    rewrite Hout, Hr in Hrun. exact Hrun.
  - refine (proj1 (proj2 (handler_voice_duration
                            Demo.cfg Demo.voice_platform (Demo.event_of "short") PNone
                            (Demo.voice_update 30) _ 30
                            eq_refl eq_refl eq_refl eq_refl eq_refl eq_refl eq_refl
                            eq_refl eq_refl eq_refl)) _ (PStr "f1") eq_refl).
    discriminate.
  - refine (proj1 (proj2 (proj2 (handler_voice_duration
                                   Demo.cfg Demo.deaf_platform (Demo.event_of "short")
                                   PNone (Demo.voice_update 30) _ 30
                                   eq_refl eq_refl eq_refl eq_refl eq_refl eq_refl
                                   eq_refl eq_refl eq_refl eq_refl))
                         _ (PStr "f1") _ _ (PStr "voice/f1.oga") Demo.failed_download
                         Demo.error_response (PInt 7) (PInt 42)
                         eq_refl eq_refl eq_refl eq_refl eq_refl eq_refl eq_refl eq_refl)
                  eq_refl).
    discriminate.
  - refine (proj2 (proj2 (proj2 (handler_voice_duration
                                   Demo.cfg Demo.hearing_platform (Demo.event_of "short")
                                   PNone (Demo.voice_update 30) _ 30
                                   eq_refl eq_refl eq_refl eq_refl eq_refl eq_refl
                                   eq_refl eq_refl eq_refl eq_refl))
                         _ (PStr "f1") _ _ (PStr "voice/f1.oga") Demo.failed_download
                         _ (PInt 7) (PInt 42)
                         eq_refl eq_refl eq_refl eq_refl eq_refl eq_refl eq_refl eq_refl)
                  _ (PStr "Казань") _ [address_request Demo.cfg (PStr "Казань")]
                  eq_refl eq_refl eq_refl _).
    + discriminate.
    + apply (emits_from_nil _ _ _ _ (run_get_echo_text _ _ _)). vm_compute. reflexivity.
Defined.

(** ** Division in binary64 stays finite *)

Lemma digits2_pos_bounds p :
  2 ^ (Zpos (digits2_pos p) - 1) <= Zpos p < 2 ^ Zpos (digits2_pos p).
Proof.
  induction p as [p IH | p IH |]; cbn [digits2_pos].
  - rewrite Pos2Z.inj_succ.
    replace (Z.succ (Zpos (digits2_pos p)) - 1) with (Z.succ (Zpos (digits2_pos p) - 1)) by lia.
    rewrite !Z.pow_succ_r by lia. lia.
  - rewrite Pos2Z.inj_succ.
    replace (Z.succ (Zpos (digits2_pos p)) - 1) with (Z.succ (Zpos (digits2_pos p) - 1)) by lia.
    rewrite !Z.pow_succ_r by lia. lia.
  - cbn. lia.
Qed.

Lemma Zdigits2_nonneg m : 0 <= Zdigits2 m.
Proof. destruct m; cbn; lia. Qed.

Lemma Zdigits2_upper m : 0 <= m -> m < 2 ^ Zdigits2 m.
Proof.
  intros Hm. destruct m as [| p | p]; [cbn; lia | | lia].
  apply digits2_pos_bounds.
Qed.

Lemma Zdigits2_lower m : 0 < m -> 2 ^ (Zdigits2 m - 1) <= m.
Proof.
  intros Hm. destruct m as [| p | p]; [lia | | lia].
  apply digits2_pos_bounds.
Qed.

Lemma Zdigits2_le m k : 0 <= m -> 0 <= k -> m < 2 ^ k -> Zdigits2 m <= k.
Proof.
  intros Hm Hk Hlt. destruct (Z.eq_dec m 0) as [-> | Hne]; [cbn; lia |].
  pose proof (Zdigits2_lower m ltac:(lia)) as Hlow.
  pose proof (Zdigits2_nonneg m).
  destruct (Z_lt_le_dec k (Zdigits2 m)) as [Hgt | Hle]; [| exact Hle].
  exfalso.
  assert (2 ^ k <= 2 ^ (Zdigits2 m - 1)) by (apply Z.pow_le_mono_r; lia).
  lia.
Qed.

Lemma shr_1_m r : 0 <= shr_m r -> shr_m (shr_1 r) = shr_m r / 2.
Proof.
  destruct r as [m rb sb]. cbn [shr_m shr_1]. intros Hm.
  destruct m as [| [p | p |] | p]; cbn [shr_m]; try lia.
  - reflexivity.
  - rewrite Pos2Z.inj_xI. apply Z.div_unique with 1; lia.
  - rewrite Pos2Z.inj_xO. apply Z.div_unique with 0; lia.
  - reflexivity.
Qed.

Lemma iter_pos_shr_1_m p : forall r,
  0 <= shr_m r -> shr_m (iter_pos shr_1 p r) = shr_m r / 2 ^ Zpos p.
Proof.
  induction p as [p IH | p IH |]; intros r Hr; cbn [iter_pos].
  - assert (H1 : 0 <= shr_m (shr_1 r)) by (rewrite shr_1_m by lia; apply Z.div_pos; lia).
    assert (H2 : 0 <= shr_m (iter_pos shr_1 p (shr_1 r)))
      by (rewrite IH by lia; apply Z.div_pos; [lia | apply Z.pow_pos_nonneg; lia]).
    rewrite IH, IH, shr_1_m by lia.
    rewrite !Z.div_div by (try lia; apply Z.pow_pos_nonneg; lia).
    f_equal. change (Z.pos p~1) with (2 * Z.pos p + 1).
    replace (2 * Zpos p + 1) with (1 + Zpos p + Zpos p) by lia.
    rewrite 2!Z.pow_add_r by lia. change (2 ^ 1) with 2. lia.
  - assert (H2 : 0 <= shr_m (iter_pos shr_1 p r))
      by (rewrite IH by lia; apply Z.div_pos; [lia | apply Z.pow_pos_nonneg; lia]).
    rewrite IH, IH by lia.
    rewrite !Z.div_div by (try lia; apply Z.pow_pos_nonneg; lia).
    f_equal. change (Z.pos p~0) with (2 * Z.pos p).
    replace (2 * Zpos p) with (Zpos p + Zpos p) by lia.
    rewrite Z.pow_add_r by lia. lia.
  - rewrite shr_1_m by lia. reflexivity.
Qed.

Lemma Zdigits2_div_pow2 m n :
  0 <= m -> 0 < n -> Zdigits2 (m / 2 ^ n) <= Z.max (Zdigits2 m - n) 0.
Proof.
  intros Hm Hn.
  pose proof (Zdigits2_upper m Hm) as Hup.
  pose proof (Zdigits2_nonneg m) as Hd.
  assert (Hpow : 0 < 2 ^ n) by (apply Z.pow_pos_nonneg; lia).
  destruct (Z_le_gt_dec (Zdigits2 m) n) as [Hle | Hgt].
  - assert (m < 2 ^ n).
    { apply Z.lt_le_trans with (2 ^ Zdigits2 m); [exact Hup |].
      apply Z.pow_le_mono_r; lia. }
    rewrite Z.div_small by lia. cbn. lia.
  - assert (m / 2 ^ n < 2 ^ (Zdigits2 m - n)).
    { apply Z.div_lt_upper_bound; [lia |].
      rewrite <- Z.pow_add_r by lia.
      replace (n + (Zdigits2 m - n)) with (Zdigits2 m) by lia. exact Hup. }
    pose proof (Zdigits2_le (m / 2 ^ n) (Zdigits2 m - n)
                  ltac:(apply Z.div_pos; lia) ltac:(lia) H).
    lia.
Qed.

Lemma Zdigits2_succ m : 0 <= m -> Zdigits2 (m + 1) <= Zdigits2 m + 1.
Proof.
  intros Hm. pose proof (Zdigits2_upper m Hm). pose proof (Zdigits2_nonneg m).
  apply Zdigits2_le; [lia | lia |].
  rewrite Z.pow_add_r by lia. lia.
Qed.

Lemma Zdigits2_mono a b : 0 <= a <= b -> Zdigits2 a <= Zdigits2 b.
Proof.
  intros H. pose proof (Zdigits2_upper b ltac:(lia)). pose proof (Zdigits2_nonneg b).
  apply Zdigits2_le; lia.
Qed.

Lemma shr_record_of_loc_m m l : shr_m (shr_record_of_loc m l) = m.
Proof. destruct l as [| []]; reflexivity. Qed.

Lemma fexp_mono a b : a <= b -> fexp 53 1024 a <= fexp 53 1024 b.
Proof. unfold fexp, emin. lia. Qed.

(** One alignment step keeps a nonnegative mantissa nonnegative, keeps its
    magnitude under [2^K], and raises the exponent at most to [fexp]. *)
Lemma shr_fexp_bounds m e l K :
  0 <= m ->
  Zdigits2 m + e <= Z.max K e ->
  let '(mrs, e') := shr_fexp 53 1024 m e l in
  0 <= shr_m mrs /\
  Zdigits2 (shr_m mrs) + e' <= Z.max K e' /\
  e <= e' /\
  e' <= Z.max e (fexp 53 1024 (Z.max K e)).
Proof.
  intros Hm HK. unfold shr_fexp, shr.
  pose proof (fexp_mono _ _ HK) as Hfexp.
  destruct (fexp 53 1024 (Zdigits2 m + e) - e) as [| p | p] eqn:Hn;
    try (rewrite shr_record_of_loc_m; lia).
  rewrite iter_pos_shr_1_m by (rewrite shr_record_of_loc_m; lia).
  rewrite shr_record_of_loc_m.
  pose proof (Zdigits2_div_pow2 m (Zpos p) Hm ltac:(lia)) as Hdiv.
  assert (0 <= m / 2 ^ Zpos p) by (apply Z.div_pos; [lia | apply Z.pow_pos_nonneg; lia]).
  lia.
Qed.

Lemma round_nearest_even_bounds m l :
  m <= round_nearest_even m l <= m + 1.
Proof.
  unfold round_nearest_even. destruct l as [| []]; try lia. destruct (Z.even m); lia.
Qed.

Lemma binary_round_aux_finite s m e l K :
  0 <= m ->
  Zdigits2 m + e <= Z.max K e ->
  K <= 1023 ->
  e <= 970 ->
  match binary_round_aux 53 1024 s m e l with
  | S754_zero _ | S754_finite _ _ _ => True
  | S754_infinity _ | S754_nan => False
  end.
Proof.
  intros Hm HK HK' He. unfold binary_round_aux.
  pose proof (shr_fexp_bounds m e l K Hm HK) as H1.
  destruct (shr_fexp 53 1024 m e l) as [mrs1 e1].
  destruct H1 as (Hm1 & Hd1 & He1 & He1').
  set (m1 := round_nearest_even (shr_m mrs1) (loc_of_shr_record mrs1)).
  pose proof (round_nearest_even_bounds (shr_m mrs1) (loc_of_shr_record mrs1)) as Hrne.
  fold m1 in Hrne.
  assert (Hdm1 : Zdigits2 m1 <= Zdigits2 (shr_m mrs1) + 1).
  { etransitivity; [apply (Zdigits2_mono m1 (shr_m mrs1 + 1)); lia |].
    now apply Zdigits2_succ. }
  pose proof (shr_fexp_bounds m1 e1 loc_Exact (Z.max (K + 1) (e1 + 1))
                ltac:(lia) ltac:(lia)) as H2.
  destruct (shr_fexp 53 1024 m1 e1 loc_Exact) as [mrs2 e2].
  destruct H2 as (Hm2 & Hd2 & He2 & He2').
  assert (Hf : fexp 53 1024 (Z.max K e) <= 970) by (unfold fexp, emin; lia).
  assert (Hf' : fexp 53 1024 (Z.max (Z.max (K + 1) (e1 + 1)) e1) <= 971)
    by (unfold fexp, emin; lia).
  destruct (shr_m mrs2) as [| p | p]; [exact I | | lia].
  replace (e2 <=? 1024 - 53) with true; [exact I |].
  symmetry. apply Z.leb_le. lia.
Qed.

Lemma SFdiv_core_binary_bounds m1 e1 m2 e2 :
  let '(q, e', l) := SFdiv_core_binary 53 1024 (Zpos m1) e1 (Zpos m2) e2 in
  0 <= q /\
  Zdigits2 q + e'
  <= Z.max ((Zdigits2 (Zpos m1) + e1) - (Zdigits2 (Zpos m2) + e2) + 1) e' /\
  e' <= fexp 53 1024 ((Zdigits2 (Zpos m1) + e1) - (Zdigits2 (Zpos m2) + e2)).
Proof.
  unfold SFdiv_core_binary.
  change IntDef.Z.min with Z.min. change IntDef.Z.div_eucl with Z.div_eucl.
  change IntDef.Z.shiftl with Z.shiftl. change IntDef.Z.sub with Z.sub.
  change IntDef.Z.add with Z.add.
  set (d1 := Zdigits2 (Zpos m1)). set (d2 := Zdigits2 (Zpos m2)).
  set (D := d1 + e1 - (d2 + e2)).
  set (e' := Z.min (fexp 53 1024 D) (e1 - e2)).
  set (s := e1 - e2 - e').
  assert (Hs : 0 <= s) by (subst s e'; lia).
  set (m' := match s with
             | 0 => Zpos m1
             | Zpos _ => Z.shiftl (Zpos m1) s
             | Zneg _ => 0
             end).
  assert (Hm' : m' = Zpos m1 * 2 ^ s).
  { subst m'. destruct s as [| p | p] eqn:Es; [cbn; lia | | lia].
    now rewrite Z.shiftl_mul_pow2 by lia. }
  pose proof (Z_div_mod m' (Zpos m2) eq_refl) as Hdiv.
  destruct (Z.div_eucl m' (Zpos m2)) as [q r]. destruct Hdiv as [Hq Hr].
  pose proof (Zdigits2_upper (Zpos m1) ltac:(lia)) as Hup1. fold d1 in Hup1.
  pose proof (Zdigits2_lower (Zpos m2) ltac:(lia)) as Hlow2. fold d2 in Hlow2.
  pose proof (Zdigits2_nonneg (Zpos m1)) as Hd1. fold d1 in Hd1.
  assert (Hd2 : 1 <= d2) by (subst d2; cbn; lia).
  assert (Hpow_s : 0 < 2 ^ s) by (apply Z.pow_pos_nonneg; lia).
  assert (Hq0 : 0 <= q) by nia.
  assert (Hlt : m' < 2 ^ (d1 + s)) by (rewrite Z.pow_add_r by lia; nia).
  assert (HA : 0 < 2 ^ (d2 - 1)) by (apply Z.pow_pos_nonneg; lia).
  cbv beta iota.
  split; [exact Hq0 |]. split; [| subst e'; lia].
  assert (Hk : Zdigits2 q <= Z.max (d1 + s - d2 + 1) 0).
  { destruct (Z_lt_le_dec (d1 + s - d2 + 1) 0) as [Hneg | Hpos].
    - assert (2 ^ (d1 + s) <= 2 ^ (d2 - 1)) by (apply Z.pow_le_mono_r; lia).
      assert (q = 0) by nia. subst q. cbn. lia.
    - assert (q < 2 ^ (d1 + s - d2 + 1)).
      { assert (HC : 2 ^ (d1 + s) = 2 ^ (d2 - 1) * 2 ^ (d1 + s - d2 + 1)).
        { rewrite <- Z.pow_add_r by lia. f_equal. lia. }
        assert (0 < 2 ^ (d1 + s - d2 + 1)) by (apply Z.pow_pos_nonneg; lia).
        nia. }
      pose proof (Zdigits2_le q (d1 + s - d2 + 1) Hq0 Hpos H). lia. }
  subst s D. lia.
Qed.

Lemma SFdiv_finite sx mx ex sy my ey :
  (Zdigits2 (Zpos mx) + ex) - (Zdigits2 (Zpos my) + ey) <= 1022 ->
  match SFdiv 53 1024 (S754_finite sx mx ex) (S754_finite sy my ey) with
  | S754_zero _ | S754_finite _ _ _ => True
  | S754_infinity _ | S754_nan => False
  end.
Proof.
  intros HD. cbn [SFdiv].
  pose proof (SFdiv_core_binary_bounds mx ex my ey) as H.
  destruct (SFdiv_core_binary 53 1024 (Zpos mx) ex (Zpos my) ey) as [[q e'] l].
  destruct H as (Hq & Hd & He).
  apply binary_round_aux_finite
    with (K := (Zdigits2 (Zpos mx) + ex) - (Zdigits2 (Zpos my) + ey) + 1); try lia.
  unfold fexp, emin in He. lia.
Qed.

Lemma round_of_finite f :
  match f with
  | S754_zero _ | S754_finite _ _ _ => True
  | S754_infinity _ | S754_nan => False
  end ->
  F64.is_finite f = true /\ exists r, F64.round f = Ok r.
Proof. destruct f; cbn; intros H; try contradiction; eauto. Qed.

(** The quotient by 45 of a finite number is finite, so rounding it is
    defined. *)
Lemma wind_index_defined degrees :
  finite_number degrees ->
  exists r, rbind (py_truediv_int degrees 45) F64.round = Ok r.
Proof.
  destruct degrees as [| b | z | f | s | l | d]; cbn [finite_number]; try contradiction.
  - intros Hz. cbn [py_truediv_int].
    assert (Hdiv : forall sx m,
               Zpos m < 2 ^ 1024 ->
               exists r, rbind (float_result
                                  (F64.div (S754_finite sx m 0) (S754_finite false 45 0)))
                               F64.round = Ok r).
    { intros sx m Hm.
      pose proof (Zdigits2_le (Zpos m) 1024 ltac:(lia) ltac:(lia) Hm) as Hd.
      pose proof (SFdiv_finite sx m 0 false 45 0) as H.
      change (Zdigits2 (Zpos 45)) with 6 in H.
      destruct (round_of_finite _ (H ltac:(lia))) as (Hfin & r & Hr).
      exists r. unfold float_result, F64.div, F64.prec, F64.emax in *.
      now rewrite Hfin. }
    destruct z as [| m | m]; cbn [F64.of_quotient].
    + exists 0. reflexivity.
    + apply Hdiv. lia.
    + apply Hdiv. lia.
  - intros [Hfin Hvalid]. cbn [py_truediv_int rbind].
    change (F64.of_Z 45) with (S754_finite false 6333186975989760 (-47)).
    destruct f as [sx | sx | | sx m e]; try discriminate Hfin.
    + exists 0. reflexivity.
    + cbn [valid_binary] in Hvalid. unfold bounded, canonical_mantissa in Hvalid.
      apply andb_true_iff in Hvalid as [Hcanon Hbound].
      apply Z.eqb_eq in Hcanon. apply Z.leb_le in Hbound.
      unfold fexp, emin, F64.prec, F64.emax in *.
      pose proof (SFdiv_finite sx m e false 6333186975989760 (-47)) as H.
      change (Zdigits2 (Zpos 6333186975989760)) with 53 in H.
      change (Zdigits2 (Zpos m)) with (Zpos (digits2_pos m)) in H.
      destruct (round_of_finite _ (H ltac:(lia))) as (_ & r & Hr).
      exists r. exact Hr.
Qed.

(** ** The Weather Formatter *)

Lemma rbind_ok_inv {A B} (r : result A) (f : A -> result B) b :
  rbind r f = Ok b -> exists a, r = Ok a /\ f a = Ok b.
Proof. destruct r as [a | e]; [eauto | discriminate]. Qed.

Lemma seq_index_directions r :
  seq_index directions (r mod 8) = Ok (Spec.abbreviation (Spec.point_at (r mod 8))).
Proof.
  pose proof (Z.mod_pos_bound r 8 eq_refl) as Hr.
  assert (H : r mod 8 = 0 \/ r mod 8 = 1 \/ r mod 8 = 2 \/ r mod 8 = 3 \/
              r mod 8 = 4 \/ r mod 8 = 5 \/ r mod 8 = 6 \/ r mod 8 = 7) by lia.
  repeat (destruct H as [-> | H]; [reflexivity |]). now rewrite H.
Qed.

(** Checking a property of the integers from 0 to [n - 1] by running it. *)
Lemma check_range (P : Z -> bool) (n : nat) :
  forallb (fun k => P (Z.of_nat k)) (seq 0 n) = true ->
  forall z, 0 <= z < Z.of_nat n -> P z = true.
Proof.
  intros H z Hz. rewrite forallb_forall in H.
  specialize (H (Z.to_nat z)). rewrite Z2Nat.id in H by lia.
  apply H, in_seq. lia.
Qed.

Lemma wind_direction_exact_on_circle :
  forallb (fun k => agrees_on_wind (Z.of_nat k)) (seq 0 361) = true.
Proof. vm_compute. reflexivity. Qed.

(** C5.  For every finite number of degrees, [get_wind_direction] returns
    the abbreviation of the compass point at index [round(degrees / 45) mod 8]
    of the list North, North-East, ..., North-West, which is the program's
    list [directions]; for the whole degrees from 0 to 360 the floating-point
    quotient rounds as the exact one does; 0 and 360 degrees give North and
    40 degrees North-East. *)
Theorem get_wind_direction_compass :
  (forall degrees,
      finite_number degrees ->
      exists r,
        rbind (py_truediv_int degrees 45) F64.round = Ok r /\
        get_wind_direction degrees = Ok (Spec.abbreviation (Spec.point_at (r mod 8))))
  /\
  (forall d, 0 <= d <= 360 ->
             get_wind_direction (PInt d) = Ok (Spec.abbreviation (Spec.wind_direction d)))
  /\
  map Spec.abbreviation Spec.compass_points = directions
  /\
  get_wind_direction (PInt 0) = Ok (Spec.abbreviation Spec.North) /\
  get_wind_direction (PInt 40) = Ok (Spec.abbreviation Spec.NorthEast) /\
  get_wind_direction (PInt 360) = Ok (Spec.abbreviation Spec.North).
Proof.
  split; [| split; [| repeat split]].
  - intros degrees Hfinite.
    destruct (wind_index_defined degrees Hfinite) as (r & Hr).
    exists r. split; [exact Hr |].
    apply rbind_ok_inv in Hr as (q & Hq & Hr).
    unfold get_wind_direction. rewrite Hq. cbn [rbind]. rewrite Hr. cbn [rbind].
    apply seq_index_directions.
  - intros d Hd.
    pose proof (check_range agrees_on_wind 361 wind_direction_exact_on_circle d
                            ltac:(lia)) as H.
    unfold agrees_on_wind in H. destruct (get_wind_direction (PInt d)) as [s | e];
      [| discriminate].
    apply String.eqb_eq in H. now subst.
Qed.

Lemma get_wind_direction_compass_witness :
  (exists r,
      rbind (py_truediv_int (PFloat (F64.of_quotient 135 2)) 45) F64.round = Ok r /\
      get_wind_direction (PFloat (F64.of_quotient 135 2))
      = Ok (Spec.abbreviation (Spec.point_at (r mod 8))))
  /\
  get_wind_direction (PInt 200) = Ok (Spec.abbreviation (Spec.wind_direction 200)).
Proof.
  split.
  - exact (proj1 get_wind_direction_compass (PFloat (F64.of_quotient 135 2))
                 (conj eq_refl eq_refl)).
  - apply (proj1 (proj2 get_wind_direction_compass) 200). lia.
Defined.

(** What a returned report was made of. *)
Lemma format_weather_inv pf info text :
  format_weather pf info = Ok text ->
  exists d weather_description temperature feels_like pressure_hPa pressure humidity
         wind_speed wind_direction sunrise sunset,
    info = PDict d /\
    py_path info [Key "main"; Key "pressure"] = Ok pressure_hPa /\
    shown_pressure pressure_hPa = Ok pressure /\
    text = weather_text pf weather_description temperature feels_like pressure humidity
             (match dict_get d "visibility" with
              | Some v => v
              | None => PStr no_data
              end)
             wind_speed wind_direction sunrise sunset.
Proof.
  unfold format_weather. intros H.
  apply rbind_ok_inv in H as (weather_description & _ & H).
  apply rbind_ok_inv in H as (temperature & _ & H).
  apply rbind_ok_inv in H as (feels_like & _ & H).
  apply rbind_ok_inv in H as (pressure & Hpressure & H).
  apply rbind_ok_inv in H as (humidity & _ & H).
  apply rbind_ok_inv in H as (visibility & Hvisibility & H).
  apply rbind_ok_inv in H as (wind_speed & _ & H).
  apply rbind_ok_inv in H as (wind_direction & _ & H).
  apply rbind_ok_inv in H as (sunrise & _ & H).
  apply rbind_ok_inv in H as (sunset & _ & H).
  apply rbind_ok_inv in Hpressure as (q & Hq & Hround).
  apply rbind_ok_inv in Hq as (pressure_hPa & Hpath & Hq).
  destruct info; try discriminate Hvisibility.
  injection Hvisibility as <-. injection H as <-.
  exists d, weather_description, temperature, feels_like, pressure_hPa, pressure,
         humidity, wind_speed, wind_direction, sunrise, sunset.
  repeat split; [exact Hpath |].
  unfold shown_pressure. rewrite Hq. exact Hround.
Qed.


Lemma emits_get_weather_info cfg pf lat lon resp info :
  requests_send pf (weather_request cfg lat lon) = Ok resp ->
  json resp = Ok info ->
  emits (get_weather_info cfg pf lat lon)
        (rbind (format_weather pf info) (fun text => Ok (PStr text)))
        [weather_request cfg lat lon].
Proof.
  intros Hresp Hjson log. unfold get_weather_info, bind, requests_call, lift.
  rewrite Hresp, Hjson. destruct (format_weather pf info); reflexivity.
Qed.

Lemma pressure_exact_on_range :
  forallb (fun k => agrees_on_pressure (Z.of_nat k)) (seq 0 2001) = true.
Proof. vm_compute. reflexivity. Qed.

(** C6.  A report that [get_weather_info] returns shows, in its pressure
    line, [round(pressure / 1.333)] for the [pressure] of the provider's
    answer; for the whole readings from 0 to 2000 hPa the floating-point
    computation gives the exact quotient by 1.333 rounded to the nearest
    integer, and 1013 hPa gives 760. *)
Theorem report_pressure_mmHg cfg pf lat lon resp info text :
  requests_send pf (weather_request cfg lat lon) = Ok resp ->
  json resp = Ok info ->
  emits (get_weather_info cfg pf lat lon) (Ok (PStr text)) [weather_request cfg lat lon] ->
  (exists pressure_hPa pressure weather_description temperature feels_like humidity
          visibility wind_speed wind_direction sunrise sunset,
      py_path info [Key "main"; Key "pressure"] = Ok pressure_hPa /\
      rbind (py_truediv_float pressure_hPa F64.lit_1_333) F64.round = Ok pressure /\
      text = weather_text pf weather_description temperature feels_like pressure
               humidity visibility wind_speed wind_direction sunrise sunset)
  /\
  (forall p, 0 <= p <= 2000 ->
             rbind (py_truediv_float (PInt p) F64.lit_1_333) F64.round
             = Ok (Spec.pressure_mmHg p))
  /\
  rbind (py_truediv_float (PInt 1013) F64.lit_1_333) F64.round = Ok 760.
Proof.
  intros Hresp Hjson Hrun. split; [| split].
  - pose proof (emits_get_weather_info cfg pf lat lon resp info Hresp Hjson) as Hrun'.
    destruct (emits_unique _ _ _ _ _ Hrun Hrun') as [Hr _].
    destruct (format_weather pf info) as [text' | e] eqn:Hformat; [| discriminate Hr].
    injection Hr as ->.
    destruct (format_weather_inv pf info text' Hformat)
      as (d & wd & t & fl & hPa & p & h & ws & dir & sr & ss & -> & Hpath & Hshown & ->).
    exists hPa, p, wd, t, fl, h. eauto 10.
  - intros p Hp.
    pose proof (check_range agrees_on_pressure 2001 pressure_exact_on_range p
                            ltac:(lia)) as H.
    unfold agrees_on_pressure, shown_pressure in H.
    destruct (rbind _ F64.round) as [mmHg | e]; [| discriminate].
    apply Z.eqb_eq in H. now subst.
  - vm_compute. reflexivity.
Qed.

Lemma report_pressure_mmHg_witness :
  exists pressure_hPa pressure weather_description temperature feels_like humidity
         visibility wind_speed wind_direction sunrise sunset,
    py_path (Demo.weather_fields []) [Key "main"; Key "pressure"] = Ok pressure_hPa /\
    rbind (py_truediv_float pressure_hPa F64.lit_1_333) F64.round = Ok pressure /\
    Demo.sunny_report no_data
    = weather_text Demo.sunny_platform weather_description temperature feels_like
        pressure humidity visibility wind_speed wind_direction sunrise sunset.
Proof.
  refine (proj1 (report_pressure_mmHg
                   Demo.cfg Demo.sunny_platform (PInt 55) (PInt 37)
                   (Demo.json_response (Demo.weather_fields []))
                   (Demo.weather_fields []) (Demo.sunny_report no_data)
                   eq_refl eq_refl _)).
  intros log. vm_compute. reflexivity.
Defined.



(** ** End to end *)

(** A location message, a full answer of the weather provider without
    [visibility]: one weather request, then one reply with the report. *)
Example handler_location_report :
  handler Demo.cfg Demo.sunny_platform (Demo.event_of "location") PNone [] =
  (Ok FUNC_RESPONSE,
   [weather_request Demo.cfg (PInt 55) (PInt 37);
    text_reply Demo.cfg (PInt 42) (PInt 7) (Demo.sunny_report "нет данных")]).
Proof. vm_compute. reflexivity. Qed.

Example handler_location_report_visibility :
  handler Demo.cfg Demo.visible_platform (Demo.event_of "location") PNone [] =
  (Ok FUNC_RESPONSE,
   [weather_request Demo.cfg (PInt 55) (PInt 37);
    text_reply Demo.cfg (PInt 42) (PInt 7) (Demo.sunny_report "10000")]).
Proof. vm_compute. reflexivity. Qed.

(** A text message with an address the geocoder resolves to latitude 0. *)
Example handler_text_on_equator :
  handler Demo.cfg
          (Demo.geocoding_platform (Demo.candidate (PInt 0) (PInt 0) (PStr "37.0")))
          (Demo.event_of "text") PNone [] =
  (Ok FUNC_RESPONSE,
   [address_request Demo.cfg (PStr "Казань");
    text_reply Demo.cfg (PInt 42) (PInt 7)
      ("Я не нашел населенный пункт " ++ quote ++ "Казань" ++ quote ++ ".")]).
Proof. vm_compute. reflexivity. Qed.

Example literal_1_333 : F64.lit_1_333 = F64.of_quotient 1333 1000.
Proof. vm_compute. reflexivity. Qed.


(** * Further properties of the program *)

(** ** The Reply Sender *)

(** X1.  For a message that carries its ids, [send_message] posts a [str] to
    [sendMessage] under ['text'] and a [dict] to [sendVoice] under ['voice'],
    each in a body that also holds [chat_id] and [reply_to_message_id]; any
    other content is dropped without a request; the response is never looked
    at, so the call fails only when [requests] itself raises. *)
Theorem send_message_dispatch cfg pf content message message_id chat_id :
  py_getitem message (Key "message_id") = Ok message_id ->
  py_path message [Key "chat"; Key "id"] = Ok chat_id ->
  let body key :=
    PDict [("chat_id", chat_id); ("reply_to_message_id", message_id); (key, content)] in
  let posted endpoint key :=
    emits (send_message cfg pf content message)
          (rbind (requests_send pf (send_request cfg endpoint (body key)))
                 (fun _ => Ok tt))
          [send_request cfg endpoint (body key)] in
  match content with
  | PStr _ => posted "/sendMessage" "text"
  | PDict _ => posted "/sendVoice" "voice"
  | _ => emits (send_message cfg pf content message) (Ok tt) []
  end.
Proof.
  intros Hid Hchat body posted. subst posted body.
  destruct content; cbv beta;
    try (unfold send_message;
         eapply emits_bind_lift; [exact Hid |];
         eapply emits_bind_lift; [exact Hchat |];
         apply emits_ret).
  - now apply emits_send_message_text.
  - intros log. unfold send_message, bind, lift.
    rewrite Hid, Hchat. cbn [dict_set String.eqb Ascii.eqb Bool.eqb].
    unfold requests_call.
    destruct (requests_send pf _); reflexivity.
Qed.

Lemma send_message_dispatch_witness :
  let message := Demo.message_of [] in
  let voice := PDict [("file_id", PStr "f1")] in
  emits (send_message Demo.cfg Demo.start_platform voice message)
        (Raise RequestException)
        [send_request Demo.cfg "/sendVoice"
           (PDict [("chat_id", PInt 42); ("reply_to_message_id", PInt 7);
                   ("voice", voice)])]
  /\
  emits (send_message Demo.cfg Demo.start_platform PNone message) (Ok tt) [].
Proof.
  intros message voice. split.
  - exact (send_message_dispatch Demo.cfg Demo.start_platform voice message
             (PInt 7) (PInt 42) eq_refl eq_refl).
  - exact (send_message_dispatch Demo.cfg Demo.start_platform PNone message
             (PInt 7) (PInt 42) eq_refl eq_refl).
Defined.

(** X2.  [send_message] reads the ids before it looks at the content: when
    the message has no [message_id], or no [chat.id], it raises what the
    lookup raised and posts nothing, whatever the content. *)
Theorem send_message_needs_ids cfg pf content message e :
  py_getitem message (Key "message_id") = Raise e \/
  (exists message_id,
      py_getitem message (Key "message_id") = Ok message_id /\
      py_path message [Key "chat"; Key "id"] = Raise e) ->
  emits (send_message cfg pf content message) (Raise e) [].
Proof.
  intros [H | (message_id & Hid & Hchat)].
  - now apply emits_send_message_no_id.
  - now apply emits_send_message_no_chat with message_id.
Qed.

Lemma send_message_needs_ids_witness :
  emits (send_message Demo.cfg Demo.start_platform (PStr "ok")
                      (PDict [("message_id", PInt 7); ("chat", PDict [])]))
        (Raise (KeyError (PStr "id"))) [].
Proof.
  apply send_message_needs_ids. right. exists (PInt 7). split; reflexivity.
Defined.

(** ** The shape of every run of the handler *)

Section FullRun.

Variable cfg : Config.
Variable pf : Platform.

Lemma quiet_str_raise n e : quiet_str cfg n (Raise e) [].
Proof. repeat split; [simpl; lia | discriminate]. Qed.

Lemma run_get_weather_info_str lat lon :
  run_spec (get_weather_info cfg pf lat lon) (quiet_str cfg 1).
Proof.
  unfold get_weather_info.
  apply run_bind with (P := fun _ o => o = [weather_request cfg lat lon]).
  - now apply run_call.
  - intros r o1 ->. repeat run_step;
      (split; [reflexivity | split; [simpl; lia |]]); try discriminate.
    intros v [= <-]. eauto.
  - intros e o ->. split; [reflexivity | split; [simpl; lia | discriminate]].
Qed.

Lemma run_get_echo_text_str address :
  run_spec (get_echo_text cfg pf address) (quiet_str cfg 2).
Proof.
  unfold get_echo_text.
  eapply run_bind; [apply run_get_coords_from_address | | ].
  - intros [lat lon] o1 ->. cbv beta iota. run_step.
    + eapply run_weaken; [apply run_get_weather_info_str |].
      intros r o (Hs & Hlen & Hstr). cbv beta. split; [| split].
      * now rewrite sends_app, Hs.
      * rewrite length_app. simpl. lia.
      * exact Hstr.
    + run_step. split; [reflexivity | split; [simpl; lia |]].
      intros v [= <-]. eauto.
  - intros e o ->. split; [reflexivity | split; [simpl; lia | discriminate]].
Qed.

Lemma run_process_location_message_str location :
  run_spec (process_location_message cfg pf location) (quiet_str cfg 1).
Proof.
  unfold process_location_message.
  repeat run_step; try apply quiet_str_raise.
  apply run_get_weather_info_str.
Qed.

Lemma run_process_voice_message_str message :
  run_spec (process_voice_message cfg pf message) (quiet_str cfg 5).
Proof.
  unfold process_voice_message.
  run_step; [| apply quiet_str_raise].
  assert (Hquiet : forall (r : result pyval) o,
             sends cfg o = [] -> (List.length o <= 5)%nat ->
             (forall v, r = Ok v -> exists s, v = PStr s) -> quiet_str cfg 5 r o)
    by (intros; repeat split; assumption).
  apply run_bind with (P := fun _ o => o = [getfile_request cfg a]);
    [now apply run_call | |
     intros e o ->; apply Hquiet; [reflexivity | simpl; lia | discriminate]].
  intros r_file o1 ->.
  run_step; [| apply Hquiet; [reflexivity | simpl; lia | discriminate]].
  apply run_bind with (P := fun _ o => o = [download_request cfg pf a0]);
    [now apply run_call | |
     intros e o ->; apply Hquiet; [reflexivity | simpl; lia | discriminate]].
  intros r_download o2 ->. cbv zeta.
  apply run_bind with (P := fun _ o => o = [stt_request cfg (content r_download)]);
    [now apply run_call | |
     intros e o ->; apply Hquiet; [reflexivity | simpl; lia | discriminate]].
  intros r_stt o3 ->. run_step.
  - run_step; [| apply Hquiet; [reflexivity | simpl; lia | discriminate]].
    eapply run_weaken; [apply run_get_echo_text_str |].
    intros r o (Hs & Hlen & Hstr). cbv beta. apply Hquiet.
    + rewrite !sends_app, Hs. reflexivity.
    + rewrite !length_app. simpl. lia.
    + exact Hstr.
  - run_step. apply Hquiet; [reflexivity | simpl; lia |].
    intros v [= <-]. eauto.
Qed.

End FullRun.

Section FullHandler.

Variable cfg : Config.
Variable pf : Platform.
Variable event : pyval.

Lemma full_post_no_reply (r : result pyval) pre :
  sends cfg pre = [] ->
  (List.length pre <= 5)%nat ->
  (configured cfg -> has_message pf event -> forall v, r = Ok v -> False) ->
  handler_full_post cfg pf event r pre.
Proof.
  intros Hs Hlen Hnever. exists pre, []. rewrite app_nil_r.
  repeat split; try assumption.
  - now left.
  - intros Hc Hm v Hv. destruct (Hnever Hc Hm v Hv).
Qed.

Lemma full_post_raise e pre :
  sends cfg pre = [] -> (List.length pre <= 5)%nat ->
  handler_full_post cfg pf event (Raise e) pre.
Proof. intros Hs Hlen. apply full_post_no_reply; try assumption. discriminate. Qed.

Lemma full_post_raise_nil e : handler_full_post cfg pf event (Raise e) [].
Proof. apply full_post_raise; [reflexivity | simpl; lia]. Qed.

(** The last two statements of [handler] for a text, after [pre]. *)
Lemma run_reply_full update message_in s pre :
  parses pf event update ->
  py_getitem update (Key "message") = Ok message_in ->
  sends cfg pre = [] ->
  (List.length pre <= 5)%nat ->
  run_spec (bind (send_message cfg pf (PStr s) message_in) (fun _ => ret FUNC_RESPONSE))
           (fun r post => handler_full_post cfg pf event r (pre ++ post)).
Proof.
  intros Hparse Hmsg Hs Hlen.
  destruct (py_getitem message_in (Key "message_id")) as [message_id | e] eqn:Hid.
  - destruct (py_path message_in [Key "chat"; Key "id"]) as [chat_id | e] eqn:Hchat.
    + exists (rbind (requests_send pf (text_reply cfg chat_id message_id s))
                    (fun _ => Ok FUNC_RESPONSE)),
             [text_reply cfg chat_id message_id s].
      split; [now apply emits_reply_text |].
      exists pre, [text_reply cfg chat_id message_id s].
      repeat split; try assumption; [| discriminate].
      right. exists update, message_in, message_id, chat_id, s. auto.
    + exists (Raise e), []. split.
      * apply emits_bind_raise. now apply emits_send_message_no_chat with message_id.
      * rewrite app_nil_r. now apply full_post_raise.
  - exists (Raise e), []. split.
    + apply emits_bind_raise. now apply emits_send_message_no_id.
    + rewrite app_nil_r. now apply full_post_raise.
Qed.

(** A function that computes the text, then the last two statements. *)
Lemma run_then_reply (m : IO pyval) update message_in n :
  parses pf event update ->
  py_getitem update (Key "message") = Ok message_in ->
  (n <= 5)%nat ->
  run_spec m (quiet_str cfg n) ->
  run_spec (bind m (fun echo_text =>
                      bind (send_message cfg pf echo_text message_in)
                           (fun _ => ret FUNC_RESPONSE)))
           (handler_full_post cfg pf event).
Proof.
  intros Hparse Hmsg Hn Hm. eapply run_bind; [exact Hm | |].
  - intros echo_text o1 (Hs & Hlen & Hstr).
    destruct (Hstr echo_text eq_refl) as (s & ->).
    apply (run_reply_full update message_in s o1 Hparse Hmsg Hs). lia.
  - intros e o (Hs & Hlen & _). apply full_post_raise; [exact Hs | lia].
Qed.

Lemma handler_run_full context :
  run_spec (handler cfg pf event context) (handler_full_post cfg pf event).
Proof.
  assert (Hguard : forall b,
             b = true ->
             (configured cfg -> b = false) ->
             run_spec (ret FUNC_RESPONSE) (handler_full_post cfg pf event)).
  { intros b Hb Hc. apply run_ret. apply full_post_no_reply; [reflexivity | simpl; lia |].
    intros Hconf _ _ _. rewrite (Hc Hconf) in Hb. discriminate. }
  unfold handler.
  destruct (is_None (TELEGRAM_BOT_TOKEN cfg)) eqn:Htg.
  { apply (Hguard _ Htg). now intros (H & _). }
  destruct (is_None (OW_API_KEY cfg)) eqn:How.
  { apply (Hguard _ How). now intros (_ & H & _). }
  apply run_bind_lift; [intros update Hparse | intros; apply full_post_raise_nil].
  apply run_bind_lift; [intros has Hhas | intros; apply full_post_raise_nil].
  destruct has; cbn [negb].
  2: { apply run_ret. apply full_post_no_reply; [reflexivity | simpl; lia |].
       intros _ Hm _ _. specialize (Hm update Hparse). congruence. }
  apply run_bind_lift; [intros message_in Hmsg | intros; apply full_post_raise_nil].
  cbv zeta.
  apply run_bind_lift; [intros has_location _ | intros; apply full_post_raise_nil].
  destruct has_location.
  { apply run_bind_lift; [intros location _ | intros; apply full_post_raise_nil].
    apply (run_then_reply _ update message_in 1 Hparse Hmsg ltac:(lia)).
    apply run_process_location_message_str. }
  apply run_bind_lift; [intros has_text _ | intros; apply full_post_raise_nil].
  destruct has_text.
  { apply run_bind_lift; [intros text _ | intros; apply full_post_raise_nil].
    destruct (py_eq_str text "/start").
    { apply (run_reply_full update message_in start_text [] Hparse Hmsg eq_refl).
      simpl. lia. }
    destruct (is_None (DD_API_KEY cfg) || is_None (DD_SEC_KEY cfg)) eqn:Hdd.
    { apply (Hguard _ Hdd). intros (_ & _ & H1 & H2 & _). now rewrite H1, H2. }
    apply run_bind_lift; [intros text' _ | intros; apply full_post_raise_nil].
    apply run_bind_lift; [intros address _ | intros; apply full_post_raise_nil].
    apply (run_then_reply _ update message_in 2 Hparse Hmsg ltac:(lia)).
    apply run_get_echo_text_str. }
  apply run_bind_lift; [intros has_voice _ | intros; apply full_post_raise_nil].
  destruct has_voice.
  { destruct (is_None (YS_API_KEY cfg)) eqn:Hys.
    { apply (Hguard _ Hys). now intros (_ & _ & _ & _ & H). }
    apply run_bind_lift; [intros voice_duration _ | intros; apply full_post_raise_nil].
    apply run_bind_lift; [intros fits _ | intros; apply full_post_raise_nil].
    destruct fits.
    - apply (run_then_reply _ update message_in 5 Hparse Hmsg ltac:(lia)).
      apply run_process_voice_message_str.
    - apply (run_reply_full update message_in voice_too_long_text [] Hparse Hmsg eq_refl).
      simpl. lia. }
  apply (run_reply_full update message_in unsupported_text [] Hparse Hmsg eq_refl).
  simpl. lia.
Qed.

End FullHandler.

(** X3.  In every run of the handler the reply comes last: the requests
    before it, at most five, are none of them replies, and what follows is
    nothing or one [sendMessage] text addressed to the chat and the message
    of the event; the handler never posts to [sendVoice]. *)
Theorem handler_reply_is_last cfg pf event context :
  exists r pre post,
    emits (handler cfg pf event context) r (pre ++ post) /\
    sends cfg pre = [] /\
    (List.length pre <= 5)%nat /\
    (post = [] \/
     exists update message_in message_id chat_id text,
       parses pf event update /\
       py_getitem update (Key "message") = Ok message_in /\
       py_getitem message_in (Key "message_id") = Ok message_id /\
       py_path message_in [Key "chat"; Key "id"] = Ok chat_id /\
       post = [text_reply cfg chat_id message_id text]).
Proof.
  destruct (handler_run_full cfg pf event context)
    as (r & out & Hrun & pre & post & -> & Hs & Hlen & Hpost & _).
  exists r, pre, post. auto.
Qed.

(** X4.  With all five credentials set and an update that holds a message,
    a handler that returns has sent exactly one reply, as its last request. *)
Theorem handler_return_means_replied cfg pf event context v out :
  configured cfg ->
  has_message pf event ->
  emits (handler cfg pf event context) (Ok v) out ->
  exists pre chat_id message_id text,
    out = (pre ++ [text_reply cfg chat_id message_id text])%list /\
    sends cfg pre = [] /\
    List.length (sends cfg out) = 1%nat.
Proof.
  intros Hconf Hmsg Hrun.
  destruct (handler_run_full cfg pf event context)
    as (r & out' & Hrun' & pre & post & -> & Hs & Hlen & Hpost & Hreplied).
  destruct (emits_unique _ _ _ _ _ Hrun Hrun') as [<- ->].
  specialize (Hreplied Hconf Hmsg v eq_refl).
  destruct Hpost as [-> | (update & message_in & message_id & chat_id & text
                           & _ & _ & _ & _ & ->)]; [contradiction |].
  exists pre, chat_id, message_id, text. repeat split; [exact Hs |].
  rewrite sends_app, Hs. unfold sends. cbn [filter app].
  now rewrite text_reply_is_send.
Qed.

Lemma handler_return_means_replied_witness :
  exists pre chat_id message_id text,
    [weather_request Demo.cfg (PInt 55) (PInt 37);
     text_reply Demo.cfg (PInt 42) (PInt 7) (Demo.sunny_report "нет данных")]
    = (pre ++ [text_reply Demo.cfg chat_id message_id text])%list /\
    sends Demo.cfg pre = [] /\
    List.length
      (sends Demo.cfg
         [weather_request Demo.cfg (PInt 55) (PInt 37);
          text_reply Demo.cfg (PInt 42) (PInt 7) (Demo.sunny_report "нет данных")])
    = 1%nat.
Proof.
  refine (handler_return_means_replied
            Demo.cfg Demo.sunny_platform (Demo.event_of "location") PNone
            FUNC_RESPONSE _ _ _ _).
  - repeat split.
  - intros update H. injection H as <-. reflexivity.
  - apply (emits_from_nil _ _ _ _ (handler_run _ _ _ _)). vm_compute. reflexivity.
Defined.

(** ** The branches of the dispatcher *)

(** X5.  A message with a location is answered from its coordinates alone,
    whatever else it holds: the handler makes the weather request for
    [(latitude, longitude)], replies with the report when the formatter
    returns one, and replies nothing when the formatter raises. *)
Theorem handler_location_first cfg pf event context update message_in location lat lon :
  is_None (TELEGRAM_BOT_TOKEN cfg) = false ->
  is_None (OW_API_KEY cfg) = false ->
  parses pf event update ->
  py_in "message" update = Ok true ->
  py_getitem update (Key "message") = Ok message_in ->
  py_in "location" message_in = Ok true ->
  py_getitem message_in (Key "location") = Ok location ->
  py_getitem location (Key "latitude") = Ok lat ->
  py_getitem location (Key "longitude") = Ok lon ->
  (forall e,
      emits (get_weather_info cfg pf lat lon) (Raise e) [weather_request cfg lat lon] ->
      emits (handler cfg pf event context) (Raise e) [weather_request cfg lat lon])
  /\
  (forall report message_id chat_id,
      emits (get_weather_info cfg pf lat lon) (Ok (PStr report))
            [weather_request cfg lat lon] ->
      py_getitem message_in (Key "message_id") = Ok message_id ->
      py_path message_in [Key "chat"; Key "id"] = Ok chat_id ->
      emits (handler cfg pf event context)
            (rbind (requests_send pf (text_reply cfg chat_id message_id report))
                   (fun _ => Ok FUNC_RESPONSE))
            [weather_request cfg lat lon; text_reply cfg chat_id message_id report]).
Proof.
  intros Htg How Hparse Hmsg Hin Hloc Hlocation Hlat Hlon.
  assert (Hlocal : forall r o,
             emits (get_weather_info cfg pf lat lon) r o ->
             emits (process_location_message cfg pf location) r o).
  { intros r o H. unfold process_location_message.
    eapply emits_bind_lift; [exact Hlat |].
    eapply emits_bind_lift; [exact Hlon |]. exact H. }
  assert (Hreduce : forall r out,
             emits (bind (process_location_message cfg pf location)
                         (fun echo_text =>
                            bind (send_message cfg pf echo_text message_in)
                                 (fun _ => ret FUNC_RESPONSE))) r out ->
             emits (handler cfg pf event context) r out).
  { intros r out H. unfold handler. rewrite Htg, How.
    eapply emits_bind_lift; [exact Hparse |].
    eapply emits_bind_lift; [exact Hmsg |]. cbn [negb].
    eapply emits_bind_lift; [exact Hin |]. cbv zeta.
    eapply emits_bind_lift; [exact Hloc |].
    eapply emits_bind_lift; [exact Hlocation |].
    exact H. }
  split.
  - intros e He. apply Hreduce. apply emits_bind_raise. now apply Hlocal.
  - intros report message_id chat_id Hreport Hid Hchat. apply Hreduce.
    exact (emits_then_reply cfg pf _ message_in report _ message_id chat_id
             (Hlocal _ _ Hreport) Hid Hchat).
Qed.

Lemma handler_location_first_witness :
  emits (handler Demo.cfg Demo.location_and_text_platform (Demo.event_of "both") PNone)
        (Ok FUNC_RESPONSE)
        [weather_request Demo.cfg (PInt 55) (PInt 37);
         text_reply Demo.cfg (PInt 42) (PInt 7) (Demo.sunny_report "нет данных")].
Proof.
  refine (proj2 (handler_location_first
                   Demo.cfg Demo.location_and_text_platform (Demo.event_of "both") PNone
                   Demo.location_and_text_update _ _ (PInt 55) (PInt 37)
                   eq_refl eq_refl eq_refl eq_refl eq_refl eq_refl eq_refl eq_refl
                   eq_refl)
                (Demo.sunny_report "нет данных") (PInt 7) (PInt 42) _ eq_refl eq_refl).
  apply (emits_from_nil _ _ _ _ (run_get_weather_info _ _ _ _)).
  vm_compute. reflexivity.
Defined.

(** X6.  A branch whose own credential is unset is left without a word: a
    text other than ["/start"] when a geocoder key is unset, and a voice
    message, whatever its duration, when the speech key is unset, make the
    handler return the envelope with no request and no reply. *)
Theorem handler_branch_credentials cfg pf event context update message_in :
  is_None (TELEGRAM_BOT_TOKEN cfg) = false ->
  is_None (OW_API_KEY cfg) = false ->
  parses pf event update ->
  py_in "message" update = Ok true ->
  py_getitem update (Key "message") = Ok message_in ->
  py_in "location" message_in = Ok false ->
  (exists text,
      py_in "text" message_in = Ok true /\
      py_getitem message_in (Key "text") = Ok text /\
      py_eq_str text "/start" = false /\
      (DD_API_KEY cfg = None \/ DD_SEC_KEY cfg = None))
  \/
  (py_in "text" message_in = Ok false /\
   py_in "voice" message_in = Ok true /\
   YS_API_KEY cfg = None) ->
  emits (handler cfg pf event context) (Ok FUNC_RESPONSE) [].
Proof.
  intros Htg How Hparse Hmsg Hin Hloc Hbranch.
  unfold handler. rewrite Htg, How.
  eapply emits_bind_lift; [exact Hparse |].
  eapply emits_bind_lift; [exact Hmsg |]. cbn [negb].
  eapply emits_bind_lift; [exact Hin |]. cbv zeta.
  eapply emits_bind_lift; [exact Hloc |].
  destruct Hbranch as [(text & Htext & Hvalue & Hstart & Hdd) | (Htext & Hvoice & Hys)].
  - eapply emits_bind_lift; [exact Htext |].
    eapply emits_bind_lift; [exact Hvalue |].
    rewrite Hstart.
    assert (Hnone : is_None (DD_API_KEY cfg) || is_None (DD_SEC_KEY cfg) = true).
    { destruct Hdd as [-> | ->]; [reflexivity | apply orb_true_r]. }
    rewrite Hnone. apply emits_ret.
  - eapply emits_bind_lift; [exact Htext |].
    eapply emits_bind_lift; [exact Hvoice |].
    rewrite Hys. apply emits_ret.
Qed.

Lemma handler_branch_credentials_witness :
  emits (handler Demo.cfg_without_geocoder
                 (Demo.geocoding_platform (Demo.candidate (PInt 0) (PInt 1) (PInt 1)))
                 (Demo.event_of "text") PNone)
        (Ok FUNC_RESPONSE) [].
Proof.
  refine (handler_branch_credentials
            Demo.cfg_without_geocoder
            (Demo.geocoding_platform (Demo.candidate (PInt 0) (PInt 1) (PInt 1)))
            (Demo.event_of "text") PNone
            (Demo.update_of [("text", PStr "Казань")]) _
            eq_refl eq_refl eq_refl eq_refl eq_refl eq_refl _).
  left. exists (PStr "Казань"). repeat split. right. reflexivity.
Defined.

(** X7.  A message with none of ['location'], ['text'], ['voice'] gets the
    fixed help text as its one reply, and no provider is called. *)
Theorem handler_unsupported_message cfg pf event context update message_in
        message_id chat_id :
  is_None (TELEGRAM_BOT_TOKEN cfg) = false ->
  is_None (OW_API_KEY cfg) = false ->
  parses pf event update ->
  py_in "message" update = Ok true ->
  py_getitem update (Key "message") = Ok message_in ->
  py_in "location" message_in = Ok false ->
  py_in "text" message_in = Ok false ->
  py_in "voice" message_in = Ok false ->
  py_getitem message_in (Key "message_id") = Ok message_id ->
  py_path message_in [Key "chat"; Key "id"] = Ok chat_id ->
  let reply := text_reply cfg chat_id message_id unsupported_text in
  emits (handler cfg pf event context)
        (rbind (requests_send pf reply) (fun _ => Ok FUNC_RESPONSE))
        [reply].
Proof.
  intros Htg How Hparse Hmsg Hin Hloc Htext Hvoice Hid Hchat reply.
  unfold handler. rewrite Htg, How.
  eapply emits_bind_lift; [exact Hparse |].
  eapply emits_bind_lift; [exact Hmsg |]. cbn [negb].
  eapply emits_bind_lift; [exact Hin |]. cbv zeta.
  eapply emits_bind_lift; [exact Hloc |].
  eapply emits_bind_lift; [exact Htext |].
  eapply emits_bind_lift; [exact Hvoice |].
  now apply emits_reply_text.
Qed.

Lemma handler_unsupported_message_witness :
  emits (handler Demo.cfg Demo.sticker_platform (Demo.event_of "sticker") PNone)
        (Ok FUNC_RESPONSE)
        [text_reply Demo.cfg (PInt 42) (PInt 7) unsupported_text].
Proof.
  exact (handler_unsupported_message
           Demo.cfg Demo.sticker_platform (Demo.event_of "sticker") PNone
           Demo.sticker_update _ (PInt 7) (PInt 42)
           eq_refl eq_refl eq_refl eq_refl eq_refl eq_refl eq_refl eq_refl
           eq_refl eq_refl).
Defined.

(** X8.  A text other than ["/start"], both geocoder keys being set: when it
    holds a lone surrogate, [encode('utf-8')] raises [UnicodeEncodeError] and
    no request is made; any other text is handed unchanged to
    [get_echo_text]: the handler makes the requests [get_echo_text] makes and
    then replies with the text it returned, and when [get_echo_text] raises,
    the handler raises the same and replies nothing. *)
Theorem handler_text_address cfg pf event context update message_in s :
  is_None (TELEGRAM_BOT_TOKEN cfg) = false ->
  is_None (OW_API_KEY cfg) = false ->
  is_None (DD_API_KEY cfg) = false ->
  is_None (DD_SEC_KEY cfg) = false ->
  parses pf event update ->
  py_in "message" update = Ok true ->
  py_getitem update (Key "message") = Ok message_in ->
  py_in "location" message_in = Ok false ->
  py_in "text" message_in = Ok true ->
  py_getitem message_in (Key "text") = Ok (PStr s) ->
  String.eqb s "/start" = false ->
  (has_surrogate s = true ->
   emits (handler cfg pf event context) (Raise UnicodeEncodeError) [])
  /\
  (has_surrogate s = false ->
   (forall e o,
       emits (get_echo_text cfg pf (PStr s)) (Raise e) o ->
       emits (handler cfg pf event context) (Raise e) o)
   /\
   (forall echo o message_id chat_id,
       emits (get_echo_text cfg pf (PStr s)) (Ok (PStr echo)) o ->
       py_getitem message_in (Key "message_id") = Ok message_id ->
       py_path message_in [Key "chat"; Key "id"] = Ok chat_id ->
       emits (handler cfg pf event context)
             (rbind (requests_send pf (text_reply cfg chat_id message_id echo))
                    (fun _ => Ok FUNC_RESPONSE))
             (o ++ [text_reply cfg chat_id message_id echo]))).
Proof.
  intros Htg How Hdd Hsec Hparse Hmsg Hin Hloc Htext Hvalue Hstart.
  assert (Hreduce : forall r out,
             emits (bind (lift (encode_decode_utf8 (PStr s)))
                         (fun address =>
                            bind (get_echo_text cfg pf address)
                                 (fun echo_text =>
                                    bind (send_message cfg pf echo_text message_in)
                                         (fun _ => ret FUNC_RESPONSE)))) r out ->
             emits (handler cfg pf event context) r out).
  { intros r out H. unfold handler. rewrite Htg, How, Hdd, Hsec.
    eapply emits_bind_lift; [exact Hparse |].
    eapply emits_bind_lift; [exact Hmsg |]. cbn [negb].
    eapply emits_bind_lift; [exact Hin |]. cbv zeta.
    eapply emits_bind_lift; [exact Hloc |].
    eapply emits_bind_lift; [exact Htext |].
    eapply emits_bind_lift; [exact Hvalue |].
    cbn [py_eq_str orb]. rewrite Hstart.
    eapply emits_bind_lift; [exact Hvalue |].
    exact H. }
  split.
  - intros Hsurrogate. apply Hreduce. apply emits_bind_lift_raise.
    cbn [encode_decode_utf8]. now rewrite Hsurrogate.
  - intros Hclean.
    assert (Hencode : encode_decode_utf8 (PStr s) = Ok (PStr s))
      by (cbn [encode_decode_utf8]; now rewrite Hclean).
    split.
    + intros e o He. apply Hreduce.
      eapply emits_bind_lift; [exact Hencode |]. now apply emits_bind_raise.
    + intros echo o message_id chat_id Hecho Hid Hchat. apply Hreduce.
      eapply emits_bind_lift; [exact Hencode |]. now apply emits_then_reply.
Qed.

Lemma handler_text_address_witness :
  let pf := Demo.geocoding_platform (Demo.candidate (PInt 1) PNone PNone) in
  let echo := "Я не нашел населенный пункт " ++ quote ++ "Казань" ++ quote ++ "." in
  emits (handler Demo.cfg pf (Demo.event_of "text") PNone)
        (Ok FUNC_RESPONSE)
        [address_request Demo.cfg (PStr "Казань");
         text_reply Demo.cfg (PInt 42) (PInt 7) echo]
  /\
  emits (handler Demo.cfg Demo.surrogate_platform (Demo.event_of "surrogate") PNone)
        (Raise UnicodeEncodeError) [].
Proof.
  intros pf echo. split.
  - destruct (proj2 (handler_text_address
                       Demo.cfg pf (Demo.event_of "text") PNone
                       (Demo.update_of [("text", PStr "Казань")]) _ "Казань"
                       eq_refl eq_refl eq_refl eq_refl eq_refl eq_refl eq_refl
                       eq_refl eq_refl eq_refl eq_refl)
                    eq_refl) as [_ Hreply].
    refine (Hreply echo [address_request Demo.cfg (PStr "Казань")] (PInt 7) (PInt 42)
                   _ eq_refl eq_refl).
    apply (emits_from_nil _ _ _ _ (run_get_echo_text _ _ _)). vm_compute. reflexivity.
  - exact (proj1 (handler_text_address
                    Demo.cfg Demo.surrogate_platform (Demo.event_of "surrogate") PNone
                    (Demo.update_of [("text", PStr Demo.lone_surrogate)]) _
                    Demo.lone_surrogate
                    eq_refl eq_refl eq_refl eq_refl eq_refl eq_refl eq_refl
                    eq_refl eq_refl eq_refl eq_refl)
                 eq_refl).
Defined.

(** ** The Voice Transcriber *)

(** X9.  When the recogniser answers with a failure status, after the file
    was located and fetched, [process_voice_message] returns the fixed "could
    not recognise" text and never calls the geocoder; the bytes sent to the
    recogniser are the content of the download, whose status is not checked. *)
Theorem process_voice_message_not_recognized cfg pf message file_id r_file j
        file_path r_download r_stt :
  py_path message [Key "voice"; Key "file_id"] = Ok file_id ->
  requests_send pf (getfile_request cfg file_id) = Ok r_file ->
  json r_file = Ok j ->
  py_path j [Key "result"; Key "file_path"] = Ok file_path ->
  requests_send pf (download_request cfg pf file_path) = Ok r_download ->
  requests_send pf (stt_request cfg (content r_download)) = Ok r_stt ->
  ok r_stt = false ->
  emits (process_voice_message cfg pf message)
        (Ok (PStr "Не удалось распознать голосовое сообщение."))
        [getfile_request cfg file_id; download_request cfg pf file_path;
         stt_request cfg (content r_download)].
Proof.
  intros Hid Hfile Hj Hpath Hdownload Hstt Hok.
  eapply process_voice_message_pipeline; try eassumption.
  rewrite Hok. apply emits_ret.
Qed.

Lemma process_voice_message_not_recognized_witness :
  emits (process_voice_message Demo.cfg Demo.deaf_platform Demo.voice_message)
        (Ok (PStr "Не удалось распознать голосовое сообщение."))
        [getfile_request Demo.cfg (PStr "f1");
         download_request Demo.cfg Demo.deaf_platform (PStr "voice/f1.oga");
         stt_request Demo.cfg "<html>404</html>"].
Proof.
  exact (process_voice_message_not_recognized
           Demo.cfg Demo.deaf_platform Demo.voice_message (PStr "f1")
           _ _ (PStr "voice/f1.oga") Demo.failed_download Demo.error_response
           eq_refl eq_refl eq_refl eq_refl eq_refl eq_refl eq_refl).
Defined.

(** X10.  When the recogniser answers with success and a ['result'], the
    result is treated as a typed address: [process_voice_message] makes its
    three requests and then does and returns what [get_echo_text] does for
    that result. *)
Theorem process_voice_message_recognized cfg pf message file_id r_file j
        file_path r_download r_stt recognized address r o :
  py_path message [Key "voice"; Key "file_id"] = Ok file_id ->
  requests_send pf (getfile_request cfg file_id) = Ok r_file ->
  json r_file = Ok j ->
  py_path j [Key "result"; Key "file_path"] = Ok file_path ->
  requests_send pf (download_request cfg pf file_path) = Ok r_download ->
  requests_send pf (stt_request cfg (content r_download)) = Ok r_stt ->
  ok r_stt = true ->
  json r_stt = Ok recognized ->
  py_getitem recognized (Key "result") = Ok address ->
  emits (get_echo_text cfg pf address) r o ->
  emits (process_voice_message cfg pf message) r
        (getfile_request cfg file_id :: download_request cfg pf file_path
         :: stt_request cfg (content r_download) :: o).
Proof.
  intros Hid Hfile Hj Hpath Hdownload Hstt Hok Hjson Hresult Hecho.
  eapply process_voice_message_pipeline; try eassumption.
  rewrite Hok. eapply emits_bind_lift; [rewrite Hjson; exact Hresult |].
  exact Hecho.
Qed.

Lemma process_voice_message_recognized_witness :
  emits (process_voice_message Demo.cfg Demo.hearing_platform Demo.voice_message)
        (Ok (PStr ("Я не нашел населенный пункт " ++ quote ++ "Казань" ++ quote ++ ".")))
        [getfile_request Demo.cfg (PStr "f1");
         download_request Demo.cfg Demo.hearing_platform (PStr "voice/f1.oga");
         stt_request Demo.cfg "<html>404</html>";
         address_request Demo.cfg (PStr "Казань")].
Proof.
  refine (process_voice_message_recognized
            Demo.cfg Demo.hearing_platform Demo.voice_message (PStr "f1")
            _ _ (PStr "voice/f1.oga") Demo.failed_download _ _ (PStr "Казань") _ _
            eq_refl eq_refl eq_refl eq_refl eq_refl eq_refl eq_refl eq_refl eq_refl _).
  apply (emits_from_nil _ _ _ _ (run_get_echo_text _ _ _)). vm_compute. reflexivity.
Defined.

(** ** Resolving, then reporting *)

(** X11.  When the geocoder accepts an address (status ok, quality code 0)
    and both coordinates of its first candidate are truthy, [get_echo_text]
    asks the weather provider for exactly those coordinates, as the geocoder
    gave them, and returns what [get_weather_info] returns for them. *)
Theorem get_echo_text_resolved cfg pf address resp candidate rest qc lat lon r :
  requests_send pf (address_request cfg address) = Ok resp ->
  ok resp = true ->
  json resp = Ok (PList (candidate :: rest)) ->
  py_getitem candidate (Key "qc") = Ok qc ->
  py_eq_int qc 0 = true ->
  py_getitem candidate (Key "geo_lat") = Ok lat ->
  py_getitem candidate (Key "geo_lon") = Ok lon ->
  py_truthy lat = true ->
  py_truthy lon = true ->
  emits (get_weather_info cfg pf lat lon) r [weather_request cfg lat lon] ->
  emits (get_echo_text cfg pf address) r
        [address_request cfg address; weather_request cfg lat lon].
Proof.
  intros Hresp Hok Hjson Hqc Hzero Hlat Hlon Htlat Htlon Hweather.
  unfold get_echo_text.
  refine (emits_bind _ _ (lat, lon) [_] _ _ _ _).
  - unfold get_coords_from_address.
    refine (emits_bind _ _ _ [_] _ [] (emits_requests_call _ _ _ Hresp) _).
    rewrite Hok.
    eapply emits_bind_lift; [rewrite Hjson; reflexivity |].
    eapply emits_bind_lift; [exact Hqc |]. rewrite Hzero.
    eapply emits_bind_lift; [exact Hlat |].
    eapply emits_bind_lift; [exact Hlon |].
    apply emits_ret.
  - cbv beta iota. unfold py_and. rewrite Htlat, Htlon. exact Hweather.
Qed.

Lemma get_echo_text_resolved_witness :
  let lat := PStr "55.79" in
  let lon := PStr "49.11" in
  let pf := Demo.geocoding_platform (Demo.candidate (PInt 0) lat lon) in
  emits (get_echo_text Demo.cfg pf (PStr "Казань"))
        (Ok (PStr (Demo.sunny_report "нет данных")))
        [address_request Demo.cfg (PStr "Казань"); weather_request Demo.cfg lat lon].
Proof.
  intros lat lon pf.
  refine (get_echo_text_resolved
            Demo.cfg pf (PStr "Казань") _ _ [] (PInt 0) lat lon _
            eq_refl eq_refl eq_refl eq_refl eq_refl eq_refl eq_refl eq_refl eq_refl _).
  apply (emits_from_nil _ _ _ _ (run_get_weather_info _ _ _ _)). vm_compute. reflexivity.
Defined.

(** X12.  The Resolver turns only a failure status into [(None, None)]:
    a call on which [requests] raises, an ok answer whose body is not JSON,
    whose candidate list is empty, or whose first candidate has no ['qc'],
    raises to the caller after the one request. *)
Theorem get_coords_from_address_unhandled cfg pf address :
  let run := emits (get_coords_from_address cfg pf address) in
  let request := address_request cfg address in
  (forall e, requests_send pf request = Raise e -> run (Raise e) [request])
  /\
  (forall resp,
      requests_send pf request = Ok resp ->
      ok resp = true ->
      (forall e, json resp = Raise e -> run (Raise e) [request])
      /\
      (json resp = Ok (PList []) -> run (Raise IndexError) [request])
      /\
      (forall candidate rest e,
          json resp = Ok (PList (candidate :: rest)) ->
          py_getitem candidate (Key "qc") = Raise e ->
          run (Raise e) [request])).
Proof.
  intros run request. subst run request. split.
  - intros e Hraise. unfold get_coords_from_address.
    apply emits_bind_raise. rewrite <- Hraise. apply emits_call.
  - intros resp Hresp Hok.
    assert (Hreduce : forall r,
               emits (bind (lift (rbind (json resp) (fun j => py_getitem j (Index 0))))
                           (fun result =>
                              bind (lift (py_getitem result (Key "qc")))
                                   (fun qc =>
                                      if py_eq_int qc 0
                                      then bind (lift (py_getitem result (Key "geo_lat")))
                                                (fun geo_lat =>
                                                   bind (lift (py_getitem result
                                                                 (Key "geo_lon")))
                                                        (fun geo_lon =>
                                                           ret (geo_lat, geo_lon)))
                                      else ret (PNone, PNone)))) r [] ->
               emits (get_coords_from_address cfg pf address) r
                     [address_request cfg address]).
    { intros r H. unfold get_coords_from_address.
      refine (emits_bind _ _ _ [_] _ [] (emits_requests_call _ _ _ Hresp) _).
      rewrite Hok. exact H. }
    split; [| split].
    + intros e Hjson. apply Hreduce. apply emits_bind_lift_raise.
      now rewrite Hjson.
    + intros Hjson. apply Hreduce. apply emits_bind_lift_raise.
      now rewrite Hjson.
    + intros candidate rest e Hjson Hqc. apply Hreduce.
      eapply emits_bind_lift; [rewrite Hjson; reflexivity |].
      now apply emits_bind_lift_raise.
Qed.

Lemma get_coords_from_address_unhandled_witness :
  emits (get_coords_from_address Demo.cfg Demo.start_platform (PStr "Казань"))
        (Raise RequestException) [address_request Demo.cfg (PStr "Казань")]
  /\
  emits (get_coords_from_address Demo.cfg (Demo.geocoding_platform (PList []))
                                 (PStr "Казань"))
        (Raise IndexError) [address_request Demo.cfg (PStr "Казань")].
Proof.
  split.
  - exact (proj1 (get_coords_from_address_unhandled
                    Demo.cfg Demo.start_platform (PStr "Казань"))
                 RequestException eq_refl).
  - exact (proj1 (proj2 (proj2 (get_coords_from_address_unhandled
                                  Demo.cfg (Demo.geocoding_platform (PList []))
                                  (PStr "Казань"))
                               (Demo.json_response (PList [])) eq_refl eq_refl))
                 eq_refl).
Defined.

(** ** Bodies that are JSON but not an object *)

(** X13.  With the bot token and the weather key set, a body that parses to
    [null], a boolean or a number makes the handler raise [TypeError] at
    ['message' not in update]; a body that parses to a string or a list
    holding ['message'] passes that test and raises [TypeError] at
    [update['message']].  No request is made in either case. *)
Theorem handler_update_not_object cfg pf event context update :
  is_None (TELEGRAM_BOT_TOKEN cfg) = false ->
  is_None (OW_API_KEY cfg) = false ->
  parses pf event update ->
  match update with
  | PNone | PBool _ | PInt _ | PFloat _ => True
  | PStr s => substring_of "message" s = true
  | PList l => existsb (fun x => py_eq_str x "message") l = true
  | PDict _ => False
  end ->
  emits (handler cfg pf event context) (Raise TypeError) [].
Proof.
  intros Htg How Hparse Hshape. unfold handler. rewrite Htg, How.
  eapply emits_bind_lift; [exact Hparse |].
  destruct update; try contradiction;
    try (now apply emits_bind_lift_raise).
  - eapply emits_bind_lift; [cbn [py_in]; now rewrite Hshape |]. cbn [negb].
    now apply emits_bind_lift_raise.
  - eapply emits_bind_lift; [cbn [py_in]; now rewrite Hshape |]. cbn [negb].
    now apply emits_bind_lift_raise.
Qed.

Lemma handler_update_not_object_witness :
  emits (handler Demo.cfg Demo.scalar_platform (Demo.event_of "5") PNone)
        (Raise TypeError) []
  /\
  emits (handler Demo.cfg Demo.scalar_platform (Demo.event_of "quoted") PNone)
        (Raise TypeError) [].
Proof.
  split.
  - exact (handler_update_not_object Demo.cfg Demo.scalar_platform (Demo.event_of "5")
             PNone (PInt 5) eq_refl eq_refl eq_refl I).
  - exact (handler_update_not_object Demo.cfg Demo.scalar_platform
             (Demo.event_of "quoted") PNone (PStr "a message")
             eq_refl eq_refl eq_refl eq_refl).
Defined.

(** ** Numbers and times in the report *)

Lemma round_shift_nearest m k :
  let n := F64.round_shift m k in
  2 * Z.abs (n * 2 ^ Zpos k - m) <= 2 ^ Zpos k /\
  (2 * Z.abs (n * 2 ^ Zpos k - m) = 2 ^ Zpos k -> Z.even n = true).
Proof.
  unfold F64.round_shift. change (Z.pow_pos 2 k) with (2 ^ Zpos k).
  set (d := 2 ^ Zpos k).
  assert (Hd : 0 < d) by (apply Z.pow_pos_nonneg; lia).
  pose proof (Z.div_mod m d ltac:(lia)) as Hdiv.
  pose proof (Z.mod_pos_bound m d Hd) as Hmod.
  set (q := m / d) in *. set (r := m mod d) in *.
  destruct (Z.compare_spec (2 * r) d) as [Heq | Hlt | Hgt]; cbv zeta.
  - destruct (Z.even q) eqn:Heven.
    + split; [nia | intros _; exact Heven].
    + split; [nia |]. intros _.
      rewrite Z.add_1_r, Z.even_succ, <- Z.negb_even, Heven. reflexivity.
  - split; [nia | intros H; exfalso; nia].
  - split; [nia | intros H; exfalso; nia].
Qed.

Lemma Ok_inj {A} (a b : A) : Ok a = Ok b -> a = b.
Proof. now intros [= ->]. Qed.

(** [round(x)] is the integer nearest to [x], ties to even. *)
Lemma py_round_nearest x n : py_round x = Ok n -> nearest_integer x n.
Proof.
  destruct x as [| b | z | f | s | l | d]; cbn [py_round nearest_integer];
    try discriminate; try (now intros [= <-]).
  destruct f as [sx | sx | | sx m e]; unfold F64.round, nearest_integer;
    try discriminate.
  - now intros [= <-].
  - intros H. apply Ok_inj in H. subst n. destruct e as [| p | k].
    + destruct sx; cbv zeta; ring.
    + destruct sx; cbv zeta; ring.
    + pose proof (round_shift_nearest (Zpos m) k) as H. cbv zeta in H |- *.
      destruct sx; [| exact H].
      destruct H as [Hnear Htie].
      replace (- F64.round_shift (Zpos m) k * 2 ^ Zpos k - - Zpos m)
        with (- (F64.round_shift (Zpos m) k * 2 ^ Zpos k - Zpos m)) by lia.
      rewrite Z.abs_opp, Z.even_opp. split; assumption.
Qed.

(** X14.  The temperature, the feels-like temperature and the humidity of a
    report that [get_weather_info] returns are the provider's values rounded
    to the nearest integer, an exact half going to the even neighbour; a
    whole value is shown as it is. *)
Theorem report_rounds_to_nearest cfg pf lat lon resp info text :
  requests_send pf (weather_request cfg lat lon) = Ok resp ->
  json resp = Ok info ->
  emits (get_weather_info cfg pf lat lon) (Ok (PStr text)) [weather_request cfg lat lon] ->
  exists temp feels humid temperature feels_like humidity
         weather_description pressure visibility wind_speed wind_direction
         sunrise sunset,
    py_path info [Key "main"; Key "temp"] = Ok temp /\
    py_path info [Key "main"; Key "feels_like"] = Ok feels /\
    py_path info [Key "main"; Key "humidity"] = Ok humid /\
    nearest_integer temp temperature /\
    nearest_integer feels feels_like /\
    nearest_integer humid humidity /\
    text = weather_text pf weather_description temperature feels_like pressure
             humidity visibility wind_speed wind_direction sunrise sunset.
Proof.
  intros Hresp Hjson Hrun.
  pose proof (emits_get_weather_info cfg pf lat lon resp info Hresp Hjson) as Hrun'.
  destruct (emits_unique _ _ _ _ _ Hrun Hrun') as [Hr _].
  destruct (format_weather pf info) as [text' | e] eqn:H; [| discriminate Hr].
  apply Ok_inj in Hr. injection Hr as ->.
  unfold format_weather in H.
  apply rbind_ok_inv in H as (weather_description & _ & H).
  apply rbind_ok_inv in H as (temperature & Htemp & H).
  apply rbind_ok_inv in H as (feels_like & Hfeels & H).
  apply rbind_ok_inv in H as (pressure & _ & H).
  apply rbind_ok_inv in H as (humidity & Hhumid & H).
  apply rbind_ok_inv in H as (visibility & _ & H).
  apply rbind_ok_inv in H as (wind_speed & _ & H).
  apply rbind_ok_inv in H as (wind_direction & _ & H).
  apply rbind_ok_inv in H as (sunrise & _ & H).
  apply rbind_ok_inv in H as (sunset & _ & H).
  apply rbind_ok_inv in Htemp as (temp & Htemp & Hround_temp).
  apply rbind_ok_inv in Hfeels as (feels & Hfeels & Hround_feels).
  apply rbind_ok_inv in Hhumid as (humid & Hhumid & Hround_humid).
  apply Ok_inj in H. subst text'.
  exists temp, feels, humid, temperature, feels_like, humidity,
         weather_description, pressure, visibility, wind_speed, wind_direction.
  exists sunrise, sunset.
  repeat split; try assumption; now apply py_round_nearest.
Qed.

Lemma report_rounds_to_nearest_witness :
  exists temp feels humid temperature feels_like humidity
         weather_description pressure visibility wind_speed wind_direction
         sunrise sunset,
    py_path Demo.half_degrees [Key "main"; Key "temp"] = Ok temp /\
    py_path Demo.half_degrees [Key "main"; Key "feels_like"] = Ok feels /\
    py_path Demo.half_degrees [Key "main"; Key "humidity"] = Ok humid /\
    nearest_integer temp temperature /\
    nearest_integer feels feels_like /\
    nearest_integer humid humidity /\
    Demo.half_report
    = weather_text Demo.half_platform weather_description temperature feels_like
        pressure humidity visibility wind_speed wind_direction sunrise sunset.
Proof.
  refine (report_rounds_to_nearest
            Demo.cfg Demo.half_platform (PInt 55) (PInt 37)
            (Demo.json_response Demo.half_degrees) Demo.half_degrees Demo.half_report
            eq_refl eq_refl _).
  apply (emits_from_nil _ _ _ _ (run_get_weather_info _ _ _ _)). vm_compute. reflexivity.
Defined.

Lemma strftime_reads_back_all :
  forallb (fun h => forallb (fun m => strftime_reads_back (Z.of_nat h) (Z.of_nat m))
                            (seq 0 60))
          (seq 0 24) = true.
Proof. vm_compute. reflexivity. Qed.

(** X15.  When the process clock gives an hour from 0 to 23 and a minute from
    0 to 59 for a timestamp, [get_time_from_timestamp] returns five
    characters, two digits, a colon and two digits, that read back as that
    hour and that minute; when the clock rejects the timestamp, the
    exception is passed on. *)
Theorem get_time_from_timestamp_format pf timestamp :
  (forall dt,
      datetime_fromtimestamp pf timestamp = Ok dt ->
      0 <= hour dt < 24 ->
      0 <= minute dt < 60 ->
      exists s,
        get_time_from_timestamp pf timestamp = Ok s /\
        String.length s = 5%nat /\
        reads_as_HM (hour dt) (minute dt) s = true)
  /\
  (forall e,
      datetime_fromtimestamp pf timestamp = Raise e ->
      get_time_from_timestamp pf timestamp = Raise e).
Proof.
  split.
  - intros [h m] Hdt Hh Hm. cbn [hour minute] in *.
    unfold get_time_from_timestamp. rewrite Hdt. cbn [rbind].
    exists (strftime_HM {| hour := h; minute := m |}).
    pose proof (check_range
                  (fun h => forallb (fun m => strftime_reads_back h (Z.of_nat m))
                                    (seq 0 60))
                  24 strftime_reads_back_all h ltac:(lia)) as Hrow.
    cbv beta in Hrow.
    pose proof (check_range (strftime_reads_back h) 60 Hrow m ltac:(lia)) as Hreads.
    unfold strftime_reads_back in Hreads.
    split; [reflexivity |]. split; [| exact Hreads].
    destruct (strftime_HM _) as [| h1 [| h2 [| c [| m1 [| m2 [| x rest]]]]]];
      try discriminate Hreads. reflexivity.
  - intros e He. unfold get_time_from_timestamp. now rewrite He.
Qed.

Lemma get_time_from_timestamp_format_witness :
  exists s,
    get_time_from_timestamp Demo.sunny_platform (PInt 1700000000) = Ok s /\
    String.length s = 5%nat /\
    reads_as_HM 1 13 s = true.
Proof.
  apply (proj1 (get_time_from_timestamp_format Demo.sunny_platform (PInt 1700000000))
               {| hour := 1; minute := 13 |});
    [reflexivity | cbn; lia | cbn; lia].
Defined.
